(** * Test-suite configuration module (ai_testsuite.py)

    A shallow embedding of the session set-up code of the test harness:
    the test-data cache synchroniser ([pytest_configure],
    [get_test_data_sizes], [download_and_extract_data],
    [extract_data_from_tar], [handle_existing_data]) and the gating and
    clean-up fixtures ([device], [run_only_on_device_fixture],
    [cleanup_local_folder]).

    The code is effectful: it reads and writes the file system, talks to
    a remote host and raises exceptions.  It is modelled in a small
    state-and-exception monad over a world made of a file system and a
    trace of the externally visible calls. *)

From stdpp Require Import base strings list gmap fin_maps.
From Stdlib Require Import ZArith.
From Stdlib.Strings Require Import Byte.

Local Open Scope Z_scope.

(** ** Python values, exceptions and outcomes *)

Module Py.

(** The argument of a marker is an arbitrary Python object; the three
    kinds below are those whose Python equality is structural. *)
Inductive pyval :=
| PyStr (s : string)
| PyInt (z : Z)
| PyNone.

#[global] Instance pyval_eq_dec : EqDecision pyval.
Proof. solve_decision. Defined.

(** [a != b] *)
Definition py_ne (a b : pyval) : bool := bool_decide (a ≠ b).

Inductive exn :=
| FileNotFoundError (p : list string)
| FileExistsError (p : list string)
| NotADirectoryError (p : list string)
| IsADirectoryError (p : list string)
| SameFileError (p : list string)
| URLError (url : string)
| ValueError
| TypeError
| ContentTooShortError
| ReadError (p : list string)
| NameError (name : string)
| IndexError
| AssertionError.

(** [except OSError] catches the errors of the file-system calls
    ([shutil.SameFileError] and [urllib.error.URLError] derive from
    [OSError] too). *)
Definition is_OSError (e : exn) : bool :=
  match e with
  | FileNotFoundError _ | FileExistsError _ | NotADirectoryError _
  | IsADirectoryError _ | SameFileError _ | URLError _
  | ContentTooShortError => true
  | _ => false
  end.

(** [except Exception] catches every exception of the model. *)
Definition is_Exception (e : exn) : bool := true.

(** How a call ends: it returns, it raises, it ends the session
    ([pytest.exit]) or it skips the running test ([pytest.skip]). *)
Inductive outcome (A : Type) :=
| Ret (a : A)
| Raise (e : exn)
| Exit (reason : string)
| Skipped (reason : string).

Arguments Ret {A} a.
Arguments Raise {A} e.
Arguments Exit {A} reason.
Arguments Skipped {A} reason.

Definition is_skipped {A} (o : outcome A) : bool :=
  match o with Skipped _ => true | _ => false end.

Definition is_exit {A} (o : outcome A) : bool :=
  match o with Exit _ => true | _ => false end.

End Py.
Export Py.

(** ** The file system *)

Module FS.

(** A path is its list of components: [join d x] is [d ++ [x]]. *)
Abbreviation path := (list string).

Inductive node :=
| File (content : list byte)
| Dir.

Abbreviation fsys := (gmap path node).

Definition join (d : path) (x : string) : path := d ++ [x].

Definition dirname (p : path) : path := take (length p - 1)%nat p.

Definition basename (p : path) : string := default ""%string (last p).

Definition exists_ (fs : fsys) (p : path) : bool :=
  match fs !! p with Some _ => true | None => false end.

Definition isdir (fs : fsys) (p : path) : bool :=
  match fs !! p with Some Dir => true | _ => false end.

(** [st_size] of a directory entry; the value plays no part below. *)
Definition dir_st_size : Z := 4096.

Definition getsize (fs : fsys) (p : path) : exn + Z :=
  match fs !! p with
  | Some (File c) => inr (Z.of_nat (length c))
  | Some Dir => inr dir_st_size
  | None => inl (FileNotFoundError p)
  end.

(** [open(p, 'rb').read()] *)
Definition read_file (fs : fsys) (p : path) : exn + list byte :=
  match fs !! p with
  | Some (File c) => inr c
  | Some Dir => inl (IsADirectoryError p)
  | None => inl (FileNotFoundError p)
  end.

(** [open(p, 'wb').write(c)]: the parent must be a directory and [p]
    must not be one. *)
Definition write_file (fs : fsys) (p : path) (c : list byte) : exn + fsys :=
  match fs !! p with
  | Some Dir => inl (IsADirectoryError p)
  | _ =>
      match fs !! dirname p with
      | Some Dir => inr (<[p := File c]> fs)
      | Some (File _) => inl (NotADirectoryError p)
      | None => inl (FileNotFoundError p)
      end
  end.

Definition mkdir (fs : fsys) (p : path) : exn + fsys :=
  match fs !! p with
  | Some _ => inl (FileExistsError p)
  | None =>
      match fs !! dirname p with
      | Some Dir => inr (<[p := Dir]> fs)
      | Some (File _) => inl (NotADirectoryError p)
      | None => inl (FileNotFoundError p)
      end
  end.

(** Everything that is not at or below [d]. *)
Definition remove_tree (d : path) (fs : fsys) : fsys :=
  filter (λ kv, ¬ d `prefix_of` kv.1) fs.

(** [shutil.rmtree(p)] *)
Definition rmtree (fs : fsys) (p : path) : exn + fsys :=
  match fs !! p with
  | Some Dir => inr (remove_tree p fs)
  | Some (File _) => inl (NotADirectoryError p)
  | None => inl (FileNotFoundError p)
  end.

(** [shutil.rmtree(p, ignore_errors=True)] *)
Definition rmtree_ignore_errors (fs : fsys) (p : path) : fsys :=
  match rmtree fs p with
  | inr fs' => fs'
  | inl _ => fs
  end.

(** [shutil.copy2(src, dst)]: a directory destination stands for the
    file of the same base name inside it. *)
Definition copy2 (fs : fsys) (src dst : path) : exn + fsys :=
  let dst' := if isdir fs dst then join dst (basename src) else dst in
  if bool_decide (src = dst') && exists_ fs src then inl (SameFileError src)
  else
    match read_file fs src with
    | inl e => inl e
    | inr c => write_file fs dst' c
    end.

(** No entry at or below [p]. *)
Definition fresh (p : path) (fs : fsys) : Prop :=
  map_Forall (λ k _, ¬ p `prefix_of` k) fs.

End FS.
Export FS.

(** ** Effects: a world, a trace and a state-and-exception monad *)

Module Eff.

(** The [Content-Length] header of a response, as [int(...)] sees it. *)
Inductive cl_header :=
| NoHeader
| BadHeader
| Len (n : Z).

Record http_response := { content_length : cl_header; body : list byte }.

(** The calls that reach outside the module. *)
Inductive event :=
| EvIniLine (name line : string)
| EvUrlopen (url : string)
| EvUrlretrieve (url : string) (filename : path)
| EvExtract (tar_path extract_to : path)
| EvPrint (msg : string)
| EvLogError (msg : string)
| EvNumbaCompat (strict : bool).

Definition is_network (ev : event) : bool :=
  match ev with EvUrlopen _ | EvUrlretrieve _ _ => true | _ => false end.

Definition is_download (ev : event) : bool :=
  match ev with EvUrlretrieve _ _ => true | _ => false end.

Definition is_extract (ev : event) : bool :=
  match ev with EvExtract _ _ => true | _ => false end.

Record world := { files : fsys; trace : list event }.

Definition M (A : Type) : Type := world → outcome A * world.

Definition ret {A} (a : A) : M A := λ w, (Ret a, w).

Definition bind {A B} (m : M A) (k : A → M B) : M B := λ w,
  match m w with
  | (Ret a, w') => k a w'
  | (Raise e, w') => (Raise e, w')
  | (Exit r, w') => (Exit r, w')
  | (Skipped r, w') => (Skipped r, w')
  end.

Definition raise {A} (e : exn) : M A := λ w, (Raise e, w).

Definition emit (ev : event) : M unit := λ w,
  (Ret tt, {| files := files w; trace := trace w ++ [ev] |}).

(** [try: m  except <catches> as e: h e] *)
Definition try_except {A} (m : M A) (catches : exn → bool) (h : exn → M A) : M A :=
  λ w,
    match m w with
    | (Raise e, w') => if catches e then h e w' else (Raise e, w')
    | r => r
    end.

(** A file-system call that only reads. *)
Definition fs_read {A} (f : fsys → exn + A) : M A := λ w,
  match f (files w) with
  | inl e => (Raise e, w)
  | inr a => (Ret a, w)
  end.

(** A file-system call that writes. *)
Definition fs_write (f : fsys → exn + fsys) : M unit := λ w,
  match f (files w) with
  | inl e => (Raise e, w)
  | inr fs' => (Ret tt, {| files := fs'; trace := trace w |})
  end.

Definition lift {A} (r : exn + A) : M A := fs_read (λ _, r).

(** [print(msg)], [logging.error(msg)], [pytest.exit(msg)],
    [pytest.skip(msg)] *)
Definition print (msg : string) : M unit := emit (EvPrint msg).
Definition logging_error (msg : string) : M unit := emit (EvLogError msg).
Definition pytest_exit {A} (msg : string) : M A := λ w, (Exit msg, w).
Definition pytest_skip {A} (msg : string) : M A := λ w, (Skipped msg, w).

End Eff.
Export Eff.

Declare Scope eff_scope.
Delimit Scope eff_scope with eff.
Notation "'let!' x ':=' m 'in' k" := (bind m (λ x, k))
  (at level 10, x pattern, m at level 100, k at level 200) : eff_scope.
Notation "m '>>' k" := (bind m (λ _, k))
  (at level 100, k at level 200, right associativity) : eff_scope.
Local Open Scope eff_scope.

(** ** Names and scopes *)

Module Scope.

(** The names bound at module level once the module is imported. *)
Definition module_globals : list string :=
  [ "logging"; "os"; "shutil"; "tarfile"; "tempfile"; "urllib"; "mkdir";
    "dirname"; "exists"; "getsize"; "join"; "Path"; "rmtree"; "Tuple";
    "pytest"; "__TEST_DATA_FILENAME"; "__TEST_DATA_URL";
    "__TEST_DATA_SUBDIR"; "pytest_addoption"; "device";
    "run_only_on_device_fixture"; "downloads_weights";
    "run_nightly_test_for_qa"; "cleanup_local_folder"; "test_data_dir";
    "download_and_extract_data"; "extract_tar"; "extract_data_from_tar";
    "handle_existing_data"; "k2_is_appropriate"; "k2_cuda_is_enabled";
    "pytest_configure"; "get_test_data_sizes"; "__file__"; "__name__" ]%string.

(** The built-in names the module refers to. *)
Definition builtins : list string :=
  [ "print"; "int"; "Exception"; "OSError"; "ImportError" ]%string.

(** Looking a name up: locals, then globals, then built-ins. *)
Definition resolve (locals : list string) (x : string) : exn + unit :=
  if bool_decide (x ∈ locals ++ module_globals ++ builtins)
  then inr tt else inl (NameError x).

Fixpoint resolve_all (locals names : list string) : exn + unit :=
  match names with
  | [] => inr tt
  | x :: rest =>
      match resolve locals x with
      | inl e => inl e
      | inr _ => resolve_all locals rest
      end
  end.

(** An f-string: its replacement fields are evaluated left to right in
    the scope of the function; the text is kept as its template. *)
Definition fstring (locals : list string) (template : string)
    (fields : list string) : exn + string :=
  match resolve_all locals fields with
  | inl e => inl e
  | inr _ => inr template
  end.

End Scope.
Export Scope.

(** ** Options, markers and requests *)

Record options := {
  cpu : bool;
  use_local_test_data : bool;
  with_downloads : bool;
  relax_numba_compat : option bool;
  nightly : bool
}.

Record mark := { mark_name : string; mark_args : list pyval }.

(** A request: the options of the run and the markers of the test node,
    the closest one first. *)
Record request := { config_of : options; node_markers : list mark }.

Definition get_closest_marker (req : request) (name : string) : option mark :=
  List.find (λ m, bool_decide (mark_name m = name)) (node_markers req).

(** A tar archive as [tarfile] reads it: its members in order, each a
    relative path with a file or a directory. *)
Abbreviation members := (list (path * node)).

Definition __TEST_DATA_FILENAME : string := "test_data.tar.gz".
Definition __TEST_DATA_URL : string :=
  "https://github.com/NVIDIA/NeMo/releases/download/v1.0.0rc1/".
Definition __TEST_DATA_SUBDIR : string := ".data".

(** ** The module *)

Section Conftest.

(** What the module takes from its surroundings: the directory of the
    module file ([dirname(__file__)]), the working directory of the
    run, what the remote host answers for a URL ([None]: the request
    fails), how [tarfile] reads the bytes of an archive ([None]: not an
    archive) and the name [tempfile] picks for a new directory. *)
Context (conftest_dir : path)
        (cwd : path)
        (remote : string → option http_response)
        (tar_decode : list byte → option members)
        (mkdtemp_name : path).

(** *** Fixtures *)

Definition device (req : request) : string :=
  if cpu (config_of req) then "CPU" else "GPU".

Definition run_only_on_device_fixture (req : request) (device : string) : M unit :=
  match get_closest_marker req "run_only_on" with
  | Some marker =>
      match mark_args marker !! 0%nat with
      | None => raise IndexError
      | Some arg =>
          if py_ne arg (PyStr device) then
            let! msg := lift (fstring ["request"; "device"; "marker"]
                                "skipped on this device: {device}" ["device"]) in
            pytest_skip msg
          else ret tt
      end
  | None => ret tt
  end.

Definition downloads_weights (req : request) : M unit :=
  match get_closest_marker req "with_downloads" with
  | Some _ =>
      if negb (with_downloads (config_of req)) then
        pytest_skip "To run this test, pass --with_downloads option. It will download (and cache) models from the cloud."
      else ret tt
  | None => ret tt
  end.

Definition run_nightly_test_for_qa (req : request) : M unit :=
  match get_closest_marker req "nightly" with
  | Some _ =>
      if negb (nightly (config_of req)) then
        (* the message, without the quotation marks around nightly *)
        pytest_skip "To run this test, pass --nightly option. It will run tests marked as nightly."
      else ret tt
  | None => ret tt
  end.

(** [Path("./name")], relative to the working directory. *)
Definition Path (name : string) : path := join cwd name.

Definition Path_exists (name : string) : M bool := λ w,
  (Ret (exists_ (files w) (Path name)), w).

Definition assert (b : bool) : M unit :=
  if b then ret tt else raise AssertionError.

Definition cleanup_dirs : list string :=
  [ "lightning_logs"; "NeMo_experiments"; "nemo_experiments" ]%string.

Fixpoint for_each {A} (l : list A) (f : A → M unit) : M unit :=
  match l with
  | [] => ret tt
  | x :: rest => f x >> for_each rest f
  end.

(** The part of [cleanup_local_folder] before [yield]. *)
Definition cleanup_setup : M unit :=
  let! e1 := Path_exists "lightning_logs" in
  assert (negb e1) >>
  let! e2 := Path_exists "NeMo_experiments" in
  assert (negb e2) >>
  let! e3 := Path_exists "nemo_experiments" in
  assert (negb e3).

(** The part after [yield]. *)
Definition cleanup_teardown : M unit :=
  for_each cleanup_dirs (λ dir,
    let! e := Path_exists dir in
    if e then λ w, (Ret tt, {| files := rmtree_ignore_errors (files w) (Path dir);
                               trace := trace w |})
    else ret tt).

(** A generator fixture around a test: the test runs at [yield] if the
    set-up got there, and the code after [yield] runs once the test is
    over, however it ended. *)
Definition around {A} (setup : M unit) (test : M A) (teardown : M unit) : M A :=
  setup >>
  λ w,
    let '(r, w1) := test w in
    match teardown w1 with
    | (Ret _, w2) => (r, w2)
    | (Raise e, w2) => (Raise e, w2)
    | (Exit s, w2) => (Exit s, w2)
    | (Skipped s, w2) => (Skipped s, w2)
    end.

Definition cleanup_local_folder {A} (test : M A) : M A :=
  around cleanup_setup test cleanup_teardown.

Definition test_data_dir : path := join conftest_dir __TEST_DATA_SUBDIR.

(** *** Archives *)

Definition urlopen (url : string) : M http_response :=
  emit (EvUrlopen url) >>
  match remote url with
  | Some u => ret u
  | None => raise (URLError url)
  end.

(** [int(u.info()["Content-Length"])] *)
Definition int_content_length (u : http_response) : M Z :=
  match content_length u with
  | Len n => ret n
  | BadHeader => raise ValueError
  | NoHeader => raise TypeError
  end.

(** [urllib.request.urlretrieve(url, filename)]: the file is opened
    for writing when the response has arrived, then the header is read
    and the body copied. *)
Definition urlretrieve (url : string) (filename : path) : M unit :=
  emit (EvUrlretrieve url filename) >>
  match remote url with
  | None => raise (URLError url)
  | Some u =>
      fs_write (λ fs, write_file fs filename []) >>
      let! size := match content_length u with
                   | Len n => ret n
                   | BadHeader => raise ValueError
                   | NoHeader => ret (-1)
                   end in
      fs_write (λ fs, write_file fs filename (body u)) >>
      if (0 <=? size) && (Z.of_nat (length (body u)) <? size)
      then raise ContentTooShortError else ret tt
  end.

(** A directory that is there or is made. *)
Definition ensure_dir (fs : fsys) (q : path) : exn + fsys :=
  match fs !! q with
  | None => inr (<[q := Dir]> fs)
  | Some Dir => inr fs
  | Some (File _) => inl (NotADirectoryError q)
  end.

(** The steps of an extraction may stop part-way: each gives the files
    as far as it got, and the error that stopped it, if any. *)

(** [os.makedirs], from the root down to [p]: the directories made
    before a failure stay. *)
Definition makedirs (fs : fsys) (p : path) : fsys * option exn :=
  foldl (λ acc n, match acc with
                  | (fs', None) =>
                      match ensure_dir fs' (take n p) with
                      | inr fs'' => (fs'', None)
                      | inl e => (fs', Some e)
                      end
                  | stopped => stopped
                  end)
        (fs, None) (seq 0 (S (length p))).

(** [TarFile.makedir]: [os.mkdir], where [FileExistsError] is passed
    over, whatever is there. *)
Definition makedir (fs : fsys) (target : path) : fsys :=
  match fs !! target with
  | None => <[target := Dir]> fs
  | Some _ => fs
  end.

(** One member of an archive written below [extract_to]: the upper
    directories are made, then the file is written or the directory
    made. *)
Definition extract_member (extract_to : path) (fs : fsys) (m : path * node)
    : fsys * option exn :=
  let target := extract_to ++ m.1 in
  match makedirs fs (dirname target) with
  | (fs', None) =>
      match m.2 with
      | File c =>
          match write_file fs' target c with
          | inr fs'' => (fs'', None)
          | inl e => (fs', Some e)
          end
      | Dir => (makedir fs' target, None)
      end
  | stopped => stopped
  end.

(** [tar.extractall(path=extract_to)]: the members in order, up to the
    first that fails; what was written before stays on disk. *)
Fixpoint extractall (ms : members) (extract_to : path) (fs : fsys)
    : fsys * option exn :=
  match ms with
  | [] => (fs, None)
  | m :: rest =>
      match extract_member extract_to fs m with
      | (fs', None) => extractall rest extract_to fs'
      | stopped => stopped
      end
  end.

(** A call on the files that keeps what it has written when it raises. *)
Definition fs_step (f : fsys → fsys * option exn) : M unit := λ w,
  match f (files w) with
  | (fs', None) => (Ret tt, {| files := fs'; trace := trace w |})
  | (fs', Some e) => (Raise e, {| files := fs'; trace := trace w |})
  end.

Definition extract_tar (tar_path extract_to : path) : M unit :=
  emit (EvExtract tar_path extract_to) >>
  let! c := fs_read (λ fs, read_file fs tar_path) in
  match tar_decode c with
  | None => raise (ReadError tar_path)
  | Some ms => fs_step (extractall ms extract_to)
  end.

Definition download_and_extract_data (test_dir test_data_archive : path)
    (url : string) : M unit :=
  urlretrieve url test_data_archive >>
  extract_tar test_data_archive test_dir.

(** [with tempfile.TemporaryDirectory() as temp_dir: body]: the
    directory is made, and removed with all it holds when the block is
    left, whichever way. *)
Definition with_TemporaryDirectory {A} (block : path → M A) : M A :=
  fs_write (λ fs, mkdir fs mkdtemp_name) >>
  λ w,
    let '(r, w1) := block mkdtemp_name w in
    (r, {| files := remove_tree mkdtemp_name (files w1); trace := trace w1 |}).

Definition handle_existing_data (test_dir test_data_archive : path)
    (local_data : bool) : M unit :=
  if negb local_data then
    fs_write (λ fs, rmtree fs test_dir)
  else
    with_TemporaryDirectory (λ temp_dir,
      print "Copying local tarfile to temporary storage.." >>
      fs_write (λ fs, copy2 fs test_data_archive temp_dir) >>
      print "Deleting test dir to cleanup old data" >>
      fs_write (λ fs, rmtree fs test_dir) >>
      fs_write (λ fs, mkdir fs test_dir) >>
      print "Restoring local tarfile to test dir" >>
      fs_write (λ fs, copy2 fs (join temp_dir (basename test_data_archive))
                               test_data_archive)).

(** Truth value of [url], [None] by default. *)
Definition truthy_url (url : option string) : bool :=
  match url with
  | Some s => negb (bool_decide (s = ""%string))
  | None => false
  end.

Definition extract_data_from_tar (test_dir test_data_archive : path)
    (url : option string) (local_data : bool) : M unit :=
  (let! e := fs_read (λ fs, inr (exists_ fs test_dir)) in
   if e then handle_existing_data test_dir test_data_archive local_data
   else fs_write (λ fs, mkdir fs test_dir)) >>
  if truthy_url url && negb local_data then
    download_and_extract_data test_dir test_data_archive (default ""%string url)
  else
    extract_tar test_data_archive test_dir.

(** *** Session set-up *)

(** The local names bound in [get_test_data_sizes] when the handler of
    the remote query runs. *)
Definition locals_get_test_data_sizes : list string :=
  [ "config"; "test_data_archive"; "local_size"; "remote_size"; "url"; "e" ]%string.

Definition get_test_data_sizes (config : options) (test_data_archive : path)
    : M (Z * Z) :=
  let! local_size :=
    try_except (fs_read (λ fs, getsize fs test_data_archive))
               is_OSError (λ _, ret (-1)) in
  let remote_size := -1 in
  let! remote_size :=
    if negb (use_local_test_data config) then
      let url := (__TEST_DATA_URL +:+ __TEST_DATA_FILENAME)%string in
      try_except
        (let! u := urlopen url in
         int_content_length u)
        is_Exception
        (λ e,
           let! msg := lift (fstring locals_get_test_data_sizes
                               "Failed to retrieve remote test data size: {e}" ["e"]) in
           logging_error msg >>
           if bool_decide (local_size = -1) then
             let! msg := lift (fstring locals_get_test_data_sizes
                                 "Test data not present and cannot access the '{url}' URL"
                                 ["url"]) in
             pytest_exit msg
           else
             let! msg := lift (fstring locals_get_test_data_sizes
                                 "Cannot access the '{url}' URL, using the test data ({local_size}B) found in `{test_dir}`."
                                 ["url"; "local_size"; "test_dir"]) in
             print msg >>
             ret remote_size)
    else ret remote_size in
  ret (local_size, remote_size).

(** The local names bound in [pytest_configure] once the sizes are
    known. *)
Definition locals_pytest_configure : list string :=
  [ "config"; "test_dir"; "test_data_archive"; "local_size"; "remote_size" ]%string.

Definition addinivalue_line (name line : string) : M unit :=
  emit (EvIniLine name line).

Definition pytest_configure (config : options) : M unit :=
  addinivalue_line "markers"
    "run_only_on(device): runs the test only on a given device [CPU | GPU]" >>
  addinivalue_line "markers"
    "with_downloads: runs the test using data present in tests/.data" >>
  addinivalue_line "markers"
    "nightly: runs the nightly test for QA." >>
  let test_dir := join conftest_dir __TEST_DATA_SUBDIR in
  let test_data_archive := join test_dir __TEST_DATA_FILENAME in
  let! sizes := get_test_data_sizes config test_data_archive in
  let local_size := sizes.1 in
  let remote_size := sizes.2 in
  (if use_local_test_data config then
     if bool_decide (local_size = -1) then
       let! msg := lift (fstring locals_pytest_configure
                           "Test data `{test_data_archive}` is not present in the system"
                           ["test_data_archive"]) in
       pytest_exit msg
     else
       let! msg := lift (fstring locals_pytest_configure
                           "Using the local `{__TEST_DATA_FILENAME}` test archive ({local_size}B) found in `{test_dir}`."
                           ["__TEST_DATA_FILENAME"; "local_size"; "test_dir"]) in
       print msg
   else ret tt) >>
  (if negb (use_local_test_data config) then
     let url := (__TEST_DATA_URL +:+ __TEST_DATA_FILENAME)%string in
     if bool_decide (remote_size ≠ local_size) then
       download_and_extract_data test_dir test_data_archive url
     else
       let! msg := lift (fstring ("url"%string :: locals_pytest_configure)
                           "A valid `{__TEST_DATA_FILENAME}` test archive ({local_size}B) found in `{test_dir}`."
                           ["__TEST_DATA_FILENAME"; "local_size"; "test_dir"]) in
       print msg
   else
     extract_tar test_data_archive test_dir) >>
  match relax_numba_compat config with
  | Some strict => emit (EvNumbaCompat strict)
  | None => ret tt
  end.

(** Sessions one after the other on the same machine: each starts on
    the files the one before left, and stops the sequence if it does not
    return. *)
Fixpoint sessions (n : nat) (config : options) : M unit :=
  match n with
  | O => ret tt
  | S k => pytest_configure config >> sessions k config
  end.

End Conftest.

(** The three marker declarations every [pytest_configure] starts with. *)
Definition marker_lines : list event :=
  [ EvIniLine "markers"
      "run_only_on(device): runs the test only on a given device [CPU | GPU]";
    EvIniLine "markers"
      "with_downloads: runs the test using data present in tests/.data";
    EvIniLine "markers" "nightly: runs the nightly test for QA." ].

Definition test_data_url : string := (__TEST_DATA_URL +:+ __TEST_DATA_FILENAME)%string.

(** The archive [pytest_configure] works on. *)
Definition test_data_archive (conftest_dir : path) : path :=
  join (test_data_dir conftest_dir) __TEST_DATA_FILENAME.

(** What [local_size] holds in [get_test_data_sizes]: the size of the
    file, or -1 when it cannot be read. *)
Definition local_size_of (fs : fsys) (p : path) : Z :=
  match getsize fs p with
  | inr n => n
  | inl _ => -1
  end.

(** The last step of [pytest_configure]. *)
Definition numba_step (config : options) : M unit :=
  match relax_numba_compat config with
  | Some strict => emit (EvNumbaCompat strict)
  | None => ret tt
  end.

Definition log_to (w : world) (evs : list event) : world :=
  {| files := files w; trace := trace w ++ evs |}.

Definition numba_events (config : options) : list event :=
  match relax_numba_compat config with
  | Some strict => [EvNumbaCompat strict]
  | None => []
  end.

(** What a session logs when the cached archive has the size of the
    remote one. *)
Definition quiet_events (config : options) : list event :=
  marker_lines ++
  [ EvUrlopen test_data_url;
    EvPrint "A valid `{__TEST_DATA_FILENAME}` test archive ({local_size}B) found in `{test_dir}`." ]
  ++ numba_events config.

Definition using_local_message : string :=
  "Using the local `{__TEST_DATA_FILENAME}` test archive ({local_size}B) found in `{test_dir}`.".

(** One round of the loop of [cleanup_local_folder] on the files. *)
Definition sweep (cwd : path) (fs : fsys) (dir : string) : fsys :=
  if exists_ fs (Path cwd dir) then rmtree_ignore_errors fs (Path cwd dir) else fs.

(** ** Concrete runs *)

Module Examples.

Definition tests_dir : path := ["repo"; "tests"]%string.
Definition work_dir : path := ["repo"]%string.
Definition data_dir : path := ["repo"; "tests"; ".data"]%string.
Definition archive : path := ["repo"; "tests"; ".data"; "test_data.tar.gz"]%string.
Definition stale : path := ["repo"; "tests"; ".data"; "old.wav"]%string.
Definition tmp_dir : path := ["tmp"; "tmpk3x9"]%string.

(** A checkout with no test data yet. *)
Definition checkout : fsys :=
  <[ tests_dir := Dir ]> (<[ work_dir := Dir ]> (<[ ["tmp"%string] := Dir ]>
    (<[ [] := Dir ]> ∅))).

(** The same with a cached two-byte archive and a file of an earlier
    extraction. *)
Definition cached : fsys :=
  <[ stale := File [x09]%byte ]> (<[ archive := File [x01; x02]%byte ]>
    (<[ data_dir := Dir ]> checkout)).

Definition start (fs : fsys) : world := {| files := fs; trace := [] |}.

(** Options of a run without flags ([--relax_numba_compat] stores
    [False] and so defaults to [True]). *)
Definition no_flags : options :=
  {| cpu := false; use_local_test_data := false; with_downloads := false;
     relax_numba_compat := Some true; nightly := false |}.

Definition local_only : options :=
  {| cpu := false; use_local_test_data := true; with_downloads := false;
     relax_numba_compat := Some true; nightly := false |}.

Definition on_cpu : options :=
  {| cpu := true; use_local_test_data := false; with_downloads := false;
     relax_numba_compat := Some true; nightly := false |}.

(** A host that cannot be reached, and one that serves [u]. *)
Definition unreachable : string → option http_response := λ _, None.
Definition serving (u : http_response) : string → option http_response :=
  λ _, Some u.

Definition release : http_response :=
  {| content_length := Len 3; body := [x01; x02; x03]%byte |}.
Definition same_size_release : http_response :=
  {| content_length := Len 2; body := [x07; x08]%byte |}.

(** A reader of archives for the runs below: any non-empty file is an
    archive of one file holding those bytes. *)
Definition one_file_tar (c : list byte) : option members :=
  match c with
  | [] => None
  | _ => Some [ (["clips"; "a.wav"]%string, File c) ]
  end.

Definition gpu_only_test (o : options) : request :=
  {| config_of := o;
     node_markers := [ {| mark_name := "run_only_on"; mark_args := [PyStr "GPU"] |} ] |}.

Definition cpu_only_test (o : options) : request :=
  {| config_of := o;
     node_markers := [ {| mark_name := "nightly"; mark_args := [] |};
                       {| mark_name := "run_only_on"; mark_args := [PyStr "CPU"] |} ] |}.

(** A test that leaves a log directory behind. *)
Definition logging_test : M unit :=
  fs_write (λ fs, mkdir fs ["repo"; "lightning_logs"]%string) >>
  fs_write (λ fs, write_file fs ["repo"; "lightning_logs"; "v0"]%string [x00]%byte).

End Examples.

(** ** The rest of the module *)

(** *** The k2 fixtures *)

(** What the k2 fixtures find: whether [nemo.core.utils.k2_guard]
    imports (it raises [ImportError] otherwise), and the values of
    [torch.cuda.is_available()] and [k2.with_cuda]. *)
Record k2_env := {
  k2_importable : bool;
  cuda_is_available : bool;
  k2_with_cuda : bool
}.

(** [logging.exception(e)] logs at the level of errors. *)
Definition logging_exception (msg : string) : M unit := emit (EvLogError msg).

Definition k2_is_appropriate (env : k2_env) : M (bool * string) :=
  if k2_importable env then
    ret (true, "k2 is appropriate."%string)
  else
    logging_exception "{e}" >>
    ret (false, "k2 is not available or does not meet the requirements."%string).

(** The imports of the body succeed when the argument says that k2 was
    imported. *)
Definition k2_cuda_is_enabled (env : k2_env) (k2_is_appropriate : bool * string)
    : M (bool * string) :=
  if negb k2_is_appropriate.1 then
    ret k2_is_appropriate
  else if cuda_is_available env && k2_with_cuda env then
    ret (true, "k2 supports CUDA."%string)
  else if cuda_is_available env then
    ret (false, "k2 does not support CUDA. Consider using a k2 build with CUDA support."%string)
  else
    ret (false, "k2 needs CUDA to be available in torch."%string).

(** *** Statements about runs *)

(** The events a run added to the trace. *)
Definition events_since (w w' : world) : list event :=
  drop (length (trace w)) (trace w').

(** A computation that, from any world, adds only events of one kind. *)
Definition emits_only {A} (P : event → Prop) (m : M A) : Prop :=
  ∀ w : world, ∃ evs : list event, trace (m w).2 = trace w ++ evs ∧ Forall P evs.

(** The size the remote query of [get_test_data_sizes] yields, when it
    yields one. *)
Definition queried_size (remote : string → option http_response) : option Z :=
  match remote test_data_url with
  | Some u => match content_length u with Len r => Some r | _ => None end
  | None => None
  end.

(** Whether [tests] has a marker of that name. *)
Definition marked (req : request) (name : string) : bool :=
  match get_closest_marker req name with Some _ => true | None => false end.

Module More_examples.

Import Examples.

(** A response with no usable length. *)
Definition chunked : http_response :=
  {| content_length := NoHeader; body := [x01; x02; x03]%byte |}.

(** The data directory with an archive that is no archive. *)
Definition corrupt : fsys :=
  <[ archive := File [] ]> (<[ data_dir := Dir ]> checkout).

(** The data directory present and empty. *)
Definition emptied : fsys := <[ data_dir := Dir ]> checkout.

Definition k2_without_cuda_build : k2_env :=
  {| k2_importable := true; cuda_is_available := true; k2_with_cuda := false |}.

Definition nightly_download_test (o : options) : request :=
  {| config_of := o;
     node_markers := [ {| mark_name := "nightly"; mark_args := [] |};
                       {| mark_name := "with_downloads"; mark_args := [] |} ] |}.

Definition bare_marker_test (o : options) : request :=
  {| config_of := o;
     node_markers := [ {| mark_name := "run_only_on"; mark_args := [] |} ] |}.

(** A test that leaves a regular file where a log directory goes. *)
Definition file_leaving_test : M unit :=
  fs_write (λ fs, write_file fs ["repo"; "lightning_logs"]%string [x00]%byte).

Definition quiet_test : M unit := ret tt.

(** A reader that finds two members in any file: the second goes below
    [old.wav]. *)
Definition two_member_tar (c : list byte) : option members :=
  Some [ (["new.txt"]%string, File [x05]%byte);
         (["old.wav"; "x"]%string, File [x06]%byte) ].

End More_examples.

(** * Properties *)

(** ** Paths and trees *)

Lemma dirname_join (d : path) (x : string) : dirname (join d x) = d.
Proof.
  unfold dirname, join. rewrite length_app. simpl.
  replace (length d + 1 - 1)%nat with (length d) by lia.
  by rewrite take_app_length.
Qed.

Lemma basename_join (d : path) (x : string) : basename (join d x) = x.
Proof. unfold basename, join. by rewrite last_snoc. Qed.

Lemma lookup_remove_tree (d : path) (fs : fsys) (k : path) :
  remove_tree d fs !! k = if decide (d `prefix_of` k) then None else fs !! k.
Proof.
  unfold remove_tree. case_decide as Hp.
  - apply map_lookup_filter_None. right. intros x _ Hn. by apply Hn.
  - destruct (fs !! k) as [x|] eqn:Hk.
    + apply map_lookup_filter_Some. done.
    + apply map_lookup_filter_None. by left.
Qed.

Lemma fresh_lookup (p : path) (fs : fsys) (k : path) : fresh p fs → p `prefix_of` k → fs !! k = None.
Proof.
  intros Hf Hp. destruct (fs !! k) as [x|] eqn:Hk; [|done].
  by destruct (Hf k x Hk).
Qed.

Lemma fresh_remove_tree (p : path) (fs : fsys) : fresh p (remove_tree p fs).
Proof.
  intros k x Hk Hp. rewrite lookup_remove_tree in Hk.
  by rewrite decide_True in Hk.
Qed.

Lemma fresh_remove_other (p d : path) (fs : fsys) : fresh p fs → fresh p (remove_tree d fs).
Proof.
  intros Hf k x Hk Hp. rewrite lookup_remove_tree in Hk.
  case_decide; [done|]. by destruct (Hf k x Hk).
Qed.

Lemma getsize_not_sentinel (fs : fsys) (p : path) (n : Z) : getsize fs p = inr n → n ≠ -1.
Proof.
  unfold getsize, dir_st_size. destruct (fs !! p) as [[c|]|]; intros [= <-]; lia.
Qed.

(** ** Extraction, member by member *)

Lemma ensure_dir_keeps (fs fs' : fsys) (q p : path) (x : node) :
  ensure_dir fs q = inr fs' → fs !! p = Some x → fs' !! p = Some x.
Proof.
  unfold ensure_dir. intros He Hp.
  destruct (fs !! q) as [[c|]|] eqn:Hq; inversion He; subst; [done|].
  rewrite lookup_insert_ne; [done|]. intros ->. congruence.
Qed.

Lemma write_file_result (fs fs' : fsys) (p : path) (c : list byte) :
  write_file fs p c = inr fs' → fs' = <[p := File c]> fs.
Proof.
  unfold write_file. intros Hw.
  destruct (fs !! p) as [[c0|]|]; try done;
    destruct (fs !! dirname p) as [[c1|]|]; by inversion Hw.
Qed.

Lemma makedirs_steps_keep (q : path) (k : path) (x : node) (l : list nat)
    (acc : fsys * option exn) :
  acc.1 !! k = Some x →
  (foldl (λ acc n, match acc with
                   | (fs', None) =>
                       match ensure_dir fs' (take n q) with
                       | inr fs'' => (fs'', None)
                       | inl e => (fs', Some e)
                       end
                   | stopped => stopped
                   end) acc l).1 !! k = Some x.
Proof.
  revert acc. induction l as [|n l IH]; intros acc Hk; [done|].
  cbn [foldl]. apply IH. destruct acc as [fs' [e|]]; [done|]. cbn [fst] in Hk.
  destruct (ensure_dir fs' (take n q)) as [e|fs''] eqn:He; [done|].
  cbn [fst]. by apply (ensure_dir_keeps fs' fs'' (take n q)).
Qed.

Lemma makedirs_keeps (fs : fsys) (q k : path) (x : node) :
  fs !! k = Some x → (makedirs fs q).1 !! k = Some x.
Proof. intros Hk. unfold makedirs. by apply makedirs_steps_keep. Qed.

Lemma makedir_keeps (fs : fsys) (t k : path) (x : node) :
  fs !! k = Some x → makedir fs t !! k = Some x.
Proof.
  intros Hk. unfold makedir. destruct (fs !! t) eqn:Ht; [done|].
  rewrite lookup_insert_ne; [done|]. intros ->. congruence.
Qed.

(** A member that fails leaves every entry as it was. *)
Lemma extract_member_failed_keeps (d : path) (fs fs' : fsys) (m : path * node)
    (e : exn) (k : path) (x : node) :
  extract_member d fs m = (fs', Some e) → fs !! k = Some x → fs' !! k = Some x.
Proof.
  unfold extract_member. intros He Hk.
  pose proof (makedirs_keeps fs (dirname (d ++ m.1)) k x Hk) as Hk1.
  destruct (makedirs fs (dirname (d ++ m.1))) as [fs1 [e1|]]; cbn [fst] in Hk1.
  - by injection He as <- _.
  - destruct (m.2) as [c|]; [|done].
    destruct (write_file fs1 (d ++ m.1) c) as [e2|fs2]; [|done]. by injection He as <- _.
Qed.

(** A member changes no entry but the file it writes. *)
Lemma extract_member_keeps (d : path) (fs fs' : fsys) (m : path * node)
    (r : option exn) (k : path) (x : node) :
  extract_member d fs m = (fs', r) → fs !! k = Some x →
  (∀ c : list byte, m.2 = File c → d ++ m.1 ≠ k) →
  fs' !! k = Some x.
Proof.
  unfold extract_member. intros He Hk Hne.
  pose proof (makedirs_keeps fs (dirname (d ++ m.1)) k x Hk) as Hk1.
  destruct (makedirs fs (dirname (d ++ m.1))) as [fs1 [e1|]]; cbn [fst] in Hk1.
  - by injection He as <- _.
  - destruct (m.2) as [c|].
    + destruct (write_file fs1 (d ++ m.1) c) as [e2|fs2] eqn:Hw; injection He as <- _;
        [done|].
      apply write_file_result in Hw as ->. rewrite lookup_insert_ne; [done|]. by apply (Hne c).
    + injection He as <- _. by apply makedir_keeps.
Qed.

(** A file member that does not fail is on disk with its bytes. *)
Lemma extract_member_writes (d : path) (fs fs' : fsys) (m : path * node)
    (c : list byte) :
  extract_member d fs m = (fs', None) → m.2 = File c →
  fs' !! (d ++ m.1) = Some (File c).
Proof.
  unfold extract_member. intros He Hm.
  destruct (makedirs fs (dirname (d ++ m.1))) as [fs1 [e1|]]; [done|]. rewrite Hm in He.
  destruct (write_file fs1 (d ++ m.1) c) as [e2|fs2] eqn:Hw; [done|].
  injection He as <-. apply write_file_result in Hw as ->. apply lookup_insert_eq.
Qed.

(** No member removes an entry. *)
Lemma extract_member_never_removes (d : path) (fs fs' : fsys) (m : path * node)
    (r : option exn) (k : path) :
  extract_member d fs m = (fs', r) → is_Some (fs !! k) → is_Some (fs' !! k).
Proof.
  unfold extract_member. intros He [x Hk].
  pose proof (makedirs_keeps fs (dirname (d ++ m.1)) k x Hk) as Hk1.
  destruct (makedirs fs (dirname (d ++ m.1))) as [fs1 [e1|]]; cbn [fst] in Hk1.
  - injection He as <- _. by exists x.
  - destruct (m.2) as [c|].
    + destruct (write_file fs1 (d ++ m.1) c) as [e2|fs2] eqn:Hw; injection He as <- _;
        [by exists x|].
      apply write_file_result in Hw as ->.
      destruct (decide (d ++ m.1 = k)) as [<-|Hne].
      * rewrite lookup_insert_eq. by eexists.
      * rewrite lookup_insert_ne by done. by exists x.
    + injection He as <- _. exists x. by apply makedir_keeps.
Qed.

(** What an extraction leaves: the first [n] members were extracted,
    all of them exactly when it did not fail; every entry that no
    extracted file member writes is as before; every extracted file
    member that no later extracted member writes again is on disk with
    its bytes; and no entry was removed. *)
Lemma extractall_spec (d : path) (ms : members) (fs fs' : fsys) (r : option exn) :
  extractall ms d fs = (fs', r) →
  ∃ n : nat,
    (n ≤ length ms)%nat
    ∧ (r = None ↔ n = length ms)
    ∧ (∀ (k : path) (x : node), fs !! k = Some x →
         (∀ (i : nat) (rel : path) (c : list byte),
            (i < n)%nat → ms !! i = Some (rel, File c) → d ++ rel ≠ k) →
         fs' !! k = Some x)
    ∧ (∀ (i : nat) (rel : path) (c : list byte),
         (i < n)%nat → ms !! i = Some (rel, File c) →
         (∀ (j : nat) (c' : list byte),
            (i < j)%nat → (j < n)%nat → ms !! j ≠ Some (rel, File c')) →
         fs' !! (d ++ rel) = Some (File c))
    ∧ (∀ k : path, is_Some (fs !! k) → is_Some (fs' !! k)).
Proof.
  revert fs. induction ms as [|m rest IH]; intros fs Hex.
  - injection Hex as <- <-. exists 0%nat. repeat split; try done; intros; lia.
  - cbn [extractall] in Hex.
    destruct (extract_member d fs m) as [fs1 [e|]] eqn:Hm.
    + injection Hex as <- <-. exists 0%nat. split; [simpl; lia|].
      split; [split; [discriminate|simpl; lia]|]. split; [|split].
      * intros k x Hk _. by apply (extract_member_failed_keeps d fs fs1 m e).
      * intros i rel c Hi. lia.
      * intros k. by apply (extract_member_never_removes d fs fs1 m (Some e)).
    + destruct (IH fs1 Hex) as (n & Hn & Hiff & Hkeep & Hput & Hsome).
      exists (S n). split; [simpl; lia|].
      split; [rewrite Hiff; simpl; split; lia|]. split; [|split].
      * intros k x Hk Hno. apply Hkeep.
        -- apply (extract_member_keeps d fs fs1 m None k x Hm Hk).
           intros c Hc. apply (Hno 0%nat m.1 c); [lia|].
           destruct m as [rel nd]. simpl in Hc. by rewrite Hc.
        -- intros i rel c Hi Hl. apply (Hno (S i) rel c); [lia|exact Hl].
      * intros [|i] rel c Hi Hl Hlast.
        -- injection Hl as ->. apply Hkeep.
           ++ by apply (extract_member_writes d fs fs1 (rel, File c) c Hm).
           ++ intros j rel' c' Hj Hl' He. apply app_inv_head in He as ->.
              apply (Hlast (S j) c'); [lia|lia|exact Hl'].
        -- apply (Hput i rel c); [lia|exact Hl|].
           intros j c' Hij Hj. apply (Hlast (S j) c'); lia.
      * intros k Hk. apply Hsome.
        by apply (extract_member_never_removes d fs fs1 m None).
Qed.

(** ** Device gating *)

Section Gating.

Import Examples.

(** C8: for a test whose closest [run_only_on] marker has the argument
    [arg], the fixture skips the test exactly when [arg] differs from
    the device of the run, which is "CPU" with [--cpu] and "GPU"
    without; otherwise the fixture returns and the test runs.  So a
    test for "GPU" is skipped on CPU, and a test for "CPU" on GPU. *)
Theorem C8_run_only_on_skips_iff_device_differs
    (req : request) (marker : mark) (arg : pyval) (w : world) :
  get_closest_marker req "run_only_on" = Some marker →
  mark_args marker !! 0%nat = Some arg →
  device req = (if cpu (config_of req) then "CPU" else "GPU")%string
  ∧ (is_skipped (run_only_on_device_fixture req (device req) w).1 = true
     ↔ arg ≠ PyStr (device req))
  ∧ (arg = PyStr (device req) →
     run_only_on_device_fixture req (device req) w = (Ret tt, w))
  ∧ (arg = PyStr "GPU" → cpu (config_of req) = true →
     is_skipped (run_only_on_device_fixture req (device req) w).1 = true)
  ∧ (arg = PyStr "CPU" → cpu (config_of req) = false →
     is_skipped (run_only_on_device_fixture req (device req) w).1 = true).
Proof.
  intros Hm Ha.
  assert (Hiff : is_skipped (run_only_on_device_fixture req (device req) w).1 = true
                 ↔ arg ≠ PyStr (device req)).
  { unfold run_only_on_device_fixture, py_ne. rewrite Hm, Ha.
    destruct (decide (arg = PyStr (device req))) as [He|Hne].
    - rewrite bool_decide_eq_false_2 by (intros Hn; by apply Hn).
      simpl. split; [discriminate | intros Hn; by destruct Hn].
    - rewrite bool_decide_eq_true_2 by done. split; [done | intros _; reflexivity]. }
  split; [reflexivity|]. split; [exact Hiff|]. split; [|split].
  - intros He. unfold run_only_on_device_fixture, py_ne. rewrite Hm, Ha.
    rewrite bool_decide_eq_false_2 by (intros Hn; by apply Hn). reflexivity.
  - intros -> Hc. apply Hiff. unfold device. rewrite Hc. discriminate.
  - intros -> Hc. apply Hiff. unfold device. rewrite Hc. discriminate.
Qed.

End Gating.

(** ** The remote query fails and an archive is cached *)

Section Closed_runs.

Import Examples.

(** C1: the remote query fails and a two-byte archive is cached.  The
    error is logged; then the message of the fall-back names
    [test_dir], which is bound in [pytest_configure] only, and
    [get_test_data_sizes] raises [NameError]: the set-up does not go
    on with the cached archive. *)
Theorem C1_fallback_raises_NameError :
  pytest_configure tests_dir unreachable one_file_tar no_flags (start cached)
  = (Raise (NameError "test_dir"),
     {| files := cached;
        trace := marker_lines ++
                 [ EvUrlopen test_data_url;
                   EvLogError "Failed to retrieve remote test data size: {e}" ] |}).
Proof. vm_compute. reflexivity. Qed.

(** C3: the host serves a three-byte release and a two-byte archive
    is cached next to a file of an earlier extraction.  The release is
    downloaded over the archive and extracted, and the earlier file is
    still there: the directory is not emptied first. *)
Theorem C3_download_keeps_earlier_files :
  let r := pytest_configure tests_dir (serving release) one_file_tar no_flags
             (start cached) in
  r.1 = Ret tt
  ∧ trace r.2 = marker_lines ++
                [ EvUrlopen test_data_url;
                  EvUrlretrieve test_data_url archive;
                  EvExtract archive data_dir;
                  EvNumbaCompat true ]
  ∧ files r.2 !! archive = Some (File (body release))
  ∧ files r.2 !! (data_dir ++ ["clips"; "a.wav"]%string) = Some (File (body release))
  ∧ files r.2 !! stale = Some (File [x09]%byte).
Proof. vm_compute. repeat split; reflexivity. Qed.

(** On a checkout without the data directory the download has nowhere
    to write: nothing makes the directory first. *)
Lemma download_into_missing_directory_fails :
  pytest_configure tests_dir (serving release) one_file_tar no_flags (start checkout)
  = (Raise (FileNotFoundError archive),
     {| files := checkout;
        trace := marker_lines ++
                 [ EvUrlopen test_data_url; EvUrlretrieve test_data_url archive ] |}).
Proof. vm_compute. reflexivity. Qed.

(** C4: the data directory is there and the local data is not kept.
    [handle_existing_data] removes the directory and does not make it
    again, so the download that follows in [extract_data_from_tar]
    finds no directory to write to and nothing is extracted. *)
Theorem C4_wiped_directory_is_not_recreated :
  handle_existing_data tmp_dir data_dir archive false (start cached)
  = (Ret tt, start checkout)
  ∧ exists_ checkout data_dir = false
  ∧ extract_data_from_tar (serving release) one_file_tar tmp_dir
      data_dir archive (Some test_data_url) false (start cached)
    = (Raise (FileNotFoundError archive),
       {| files := checkout; trace := [ EvUrlretrieve test_data_url archive ] |})
  ∧ extract_data_from_tar (serving release) one_file_tar tmp_dir
      data_dir archive None false (start cached)
    = (Raise (FileNotFoundError archive),
       {| files := checkout; trace := [ EvExtract archive data_dir ] |}).
Proof. vm_compute. repeat split; reflexivity. Qed.

End Closed_runs.

(** ** The cache synchroniser *)

(** The fields of an f-string are closed names: the look-up is computed. *)
Ltac eval_fstring :=
  match goal with
  | |- context [fstring ?l ?t ?f] =>
      let r := eval vm_compute in (fstring l t f) in
      let H := fresh in
      assert (fstring l t f = r) as H by (vm_compute; reflexivity);
      rewrite H; clear H
  end.

Section Synchroniser.

Context (conftest_dir : path)
        (remote : string → option http_response)
        (tar_decode : list byte → option members).

Lemma get_test_data_sizes_local_only (config : options) (p : path) (w : world) :
  use_local_test_data config = true →
  get_test_data_sizes remote config p w = (Ret (local_size_of (files w) p, -1), w).
Proof.
  intros Hl. unfold get_test_data_sizes, local_size_of, bind, try_except, fs_read.
  rewrite Hl. destruct (getsize (files w) p) as [e|n] eqn:Hg; simpl.
  - unfold getsize in Hg. destruct (files w !! p) as [[c|]|]; inversion Hg. reflexivity.
  - reflexivity.
Qed.

Lemma get_test_data_sizes_remote_known (config : options) (p : path) (w : world)
    (u : http_response) (r : Z) :
  use_local_test_data config = false →
  remote test_data_url = Some u →
  content_length u = Len r →
  get_test_data_sizes remote config p w
  = (Ret (local_size_of (files w) p, r), log_to w [EvUrlopen test_data_url]).
Proof.
  intros Hl Hu Hr.
  unfold get_test_data_sizes, local_size_of, bind, try_except, fs_read.
  rewrite Hl. change (__TEST_DATA_URL +:+ __TEST_DATA_FILENAME)%string with test_data_url.
  unfold urlopen, int_content_length, bind, emit, ret. rewrite Hu.
  destruct (getsize (files w) p) as [e|n] eqn:Hg; cbn; rewrite Hr.
  - unfold getsize in Hg. destruct (files w !! p) as [[c|]|]; inversion Hg. reflexivity.
  - reflexivity.
Qed.

(** C2: with [--use_local_test_data] and no archive on disk,
    [pytest_configure] ends the session through [pytest.exit] right
    after the marker declarations: the files are untouched, and
    neither a network call nor an extraction has been made. *)
Theorem C2_local_only_without_archive_exits (config : options) (w : world) :
  use_local_test_data config = true →
  files w !! test_data_archive conftest_dir = None →
  pytest_configure conftest_dir remote tar_decode config w
  = (Exit "Test data `{test_data_archive}` is not present in the system",
     log_to w marker_lines).
Proof.
  intros Hl Hf. unfold pytest_configure.
  unfold bind at 1. unfold addinivalue_line at 1, emit at 1.
  unfold bind at 1. unfold addinivalue_line at 1, emit at 1.
  unfold bind at 1. unfold addinivalue_line at 1, emit at 1.
  unfold bind at 1.
  rewrite (get_test_data_sizes_local_only _ _ _ Hl).
  unfold local_size_of, getsize. cbn [files trace fst snd].
  change (join (join conftest_dir __TEST_DATA_SUBDIR) __TEST_DATA_FILENAME)
    with (test_data_archive conftest_dir).
  rewrite Hf, Hl. unfold log_to, marker_lines. rewrite <- !app_assoc. reflexivity.
Qed.

Lemma log_to_log_to (w : world) (e1 e2 : list event) :
  log_to (log_to w e1) e2 = log_to w (e1 ++ e2).
Proof. unfold log_to. simpl. by rewrite app_assoc. Qed.

Lemma numba_step_spec (config : options) (w : world) :
  numba_step config w = (Ret tt, log_to w (numba_events config)).
Proof.
  unfold numba_step, numba_events, log_to. destruct w as [f t].
  destruct (relax_numba_compat config); simpl; [done|]. by rewrite app_nil_r.
Qed.

Lemma extract_tar_spec (a d : path) (c : list byte) (w : world) :
  files w !! a = Some (File c) →
  extract_tar tar_decode a d w
  = match tar_decode c with
    | None => (Raise (ReadError a), log_to w [EvExtract a d])
    | Some ms =>
        (match (extractall ms d (files w)).2 with
         | None => Ret tt
         | Some e => Raise e
         end,
         {| files := (extractall ms d (files w)).1;
            trace := trace w ++ [EvExtract a d] |})
    end.
Proof.
  intros Ha. unfold extract_tar, bind, emit, fs_read, fs_step, read_file.
  cbn -[extractall]. rewrite Ha. destruct (tar_decode c) as [ms|]; [|reflexivity].
  cbn -[extractall]. by destruct (extractall ms d (files w)) as [fs' [e|]].
Qed.

(** One session when the sizes agree. *)
Lemma session_with_equal_sizes (config : options) (w : world) (u : http_response) :
  use_local_test_data config = false →
  remote test_data_url = Some u →
  content_length u = Len (local_size_of (files w) (test_data_archive conftest_dir)) →
  pytest_configure conftest_dir remote tar_decode config w
  = (Ret tt, log_to w (quiet_events config)).
Proof.
  intros Hl Hu Hr. unfold pytest_configure.
  unfold bind at 1. unfold addinivalue_line at 1, emit at 1.
  unfold bind at 1. unfold addinivalue_line at 1, emit at 1.
  unfold bind at 1. unfold addinivalue_line at 1, emit at 1.
  unfold bind at 1.
  erewrite get_test_data_sizes_remote_known; [|exact Hl|exact Hu|exact Hr].
  cbn [fst snd]. rewrite Hl. cbn [negb].
  rewrite bool_decide_eq_false_2 by (intros Hn; by apply Hn).
  unfold bind at 1. unfold ret at 1. unfold bind at 1.
  unfold bind at 1.
  unfold lift, fs_read, print, emit. eval_fstring.
  unfold log_to, quiet_events, numba_events, marker_lines, ret.
  destruct (relax_numba_compat config); cbn [files trace];
    rewrite <- ?app_assoc; reflexivity.
Qed.

(** Whenever the remote query fails and the size of the archive can be
    read, the fall-back message cannot be built. *)
Lemma remote_failure_with_cached_archive_raises (config : options) (w : world) (n : Z) :
  use_local_test_data config = false →
  remote test_data_url = None →
  getsize (files w) (test_data_archive conftest_dir) = inr n →
  pytest_configure conftest_dir remote tar_decode config w
  = (Raise (NameError "test_dir"),
     log_to w (marker_lines ++
               [ EvUrlopen test_data_url;
                 EvLogError "Failed to retrieve remote test data size: {e}" ])).
Proof.
  intros Hl Hu Hg. pose proof (getsize_not_sentinel _ _ _ Hg) as Hn.
  unfold pytest_configure.
  unfold bind at 1. unfold addinivalue_line at 1, emit at 1.
  unfold bind at 1. unfold addinivalue_line at 1, emit at 1.
  unfold bind at 1. unfold addinivalue_line at 1, emit at 1.
  unfold bind at 1.
  change (join (join conftest_dir __TEST_DATA_SUBDIR) __TEST_DATA_FILENAME)
    with (test_data_archive conftest_dir).
  unfold get_test_data_sizes. unfold bind at 1. unfold try_except at 1, fs_read at 1.
  cbn [files trace]. rewrite Hg, Hl. cbn [negb].
  change (__TEST_DATA_URL +:+ __TEST_DATA_FILENAME)%string with test_data_url.
  unfold bind at 1. unfold try_except at 1. unfold bind at 1.
  unfold urlopen, bind, emit, raise. rewrite Hu.
  unfold is_Exception, lift, fs_read, logging_error, emit.
  rewrite (bool_decide_eq_false_2 _ Hn).
  repeat eval_fstring. unfold log_to, marker_lines. cbn [files trace].
  rewrite <- !app_assoc. reflexivity.
Qed.

Lemma quiet_events_quiet (config : options) :
  Forall (λ ev, is_download ev = false ∧ is_extract ev = false) (quiet_events config).
Proof.
  unfold quiet_events, numba_events, marker_lines.
  destruct (relax_numba_compat config); repeat constructor.
Qed.

(** C5: without [--use_local_test_data], when the remote content
    length is the size of the cached archive, any number of sessions in
    a row all return, leave every file as it was and log neither a
    download nor an extraction. *)
Theorem C5_equal_sizes_never_download (config : options) (w : world)
    (u : http_response) (n : nat) :
  use_local_test_data config = false →
  remote test_data_url = Some u →
  content_length u = Len (local_size_of (files w) (test_data_archive conftest_dir)) →
  ∃ evs : list event,
    sessions conftest_dir remote tar_decode n config w = (Ret tt, log_to w evs)
    ∧ Forall (λ ev, is_download ev = false ∧ is_extract ev = false) evs.
Proof.
  intros Hl Hu. revert w. induction n as [|n IH]; intros w Hr.
  - exists []. split; [|constructor].
    unfold log_to. destruct w as [f t]. simpl. by rewrite app_nil_r.
  - destruct (IH (log_to w (quiet_events config)) Hr) as (evs & Hrun & Hq).
    exists (quiet_events config ++ evs). split.
    + cbn [sessions]. unfold bind.
      rewrite (session_with_equal_sizes config w u Hl Hu Hr).
      rewrite Hrun. by rewrite log_to_log_to.
    + apply Forall_app. split; [apply quiet_events_quiet | exact Hq].
Qed.


End Synchroniser.

(** ** Preparing the data directory *)

Lemma mkdir_new (fs : fsys) (p : path) :
  fs !! p = None → fs !! dirname p = Some Dir → mkdir fs p = inr (<[p := Dir]> fs).
Proof. intros Hp Hd. unfold mkdir. by rewrite Hp, Hd. Qed.

Lemma rmtree_dir (fs : fsys) (p : path) :
  fs !! p = Some Dir → rmtree fs p = inr (remove_tree p fs).
Proof. intros Hp. unfold rmtree. by rewrite Hp. Qed.

Lemma copy2_into_directory (fs : fsys) (src dst : path) (c : list byte) :
  fs !! dst = Some Dir →
  fs !! src = Some (File c) →
  fs !! join dst (basename src) = None →
  copy2 fs src dst = inr (<[join dst (basename src) := File c]> fs).
Proof.
  intros Hd Hs Hn. unfold copy2, isdir, read_file, write_file, exists_.
  rewrite Hd, Hs, Hn, dirname_join, Hd.
  rewrite bool_decide_eq_false_2; [done|]. intros He. rewrite <- He in Hn. congruence.
Qed.

Lemma copy2_onto_new_file (fs : fsys) (src dst : path) (c : list byte) :
  fs !! dst = None →
  fs !! src = Some (File c) →
  fs !! dirname dst = Some Dir →
  copy2 fs src dst = inr (<[dst := File c]> fs).
Proof.
  intros Hd Hs Hp. unfold copy2, isdir, read_file, write_file, exists_.
  rewrite Hd, Hs, Hd, Hp.
  rewrite bool_decide_eq_false_2; [done|]. intros He. rewrite He in Hs. congruence.
Qed.

Lemma prefix_of_join (l d : path) (x : string) :
  l `prefix_of` join d x → l `prefix_of` d ∨ l = join d x.
Proof.
  unfold join. intros [s Hs]. destruct s as [|y s _] using rev_ind.
  - right. by rewrite app_nil_r in Hs.
  - left. rewrite app_assoc in Hs. apply app_inj_tail in Hs as [Hs _].
    by exists s.
Qed.

Lemma prefix_of_dirname (p : path) : p ≠ [] → ¬ p `prefix_of` dirname p.
Proof.
  intros Hne Hp. apply prefix_length in Hp. unfold dirname in Hp.
  rewrite length_take in Hp. destruct p; [done|]. simpl in Hp. lia.
Qed.

Section Directory_preparation.

Context (mkdtemp_name : path).

(** C9: whatever the files are and however the block ends,
    [handle_existing_data] leaves nothing at or below the name of the
    temporary directory, provided the name was free when it was
    picked. *)
Theorem C9_temporary_directory_is_removed (test_dir archive : path)
    (local_data : bool) (w : world) :
  fresh mkdtemp_name (files w) →
  fresh mkdtemp_name
    (files (handle_existing_data mkdtemp_name test_dir archive local_data w).2).
Proof.
  intros Hf. unfold handle_existing_data. destruct local_data; cbn [negb].
  - unfold with_TemporaryDirectory, bind, fs_write.
    destruct (mkdir (files w) mkdtemp_name) as [e|fs1]; [exact Hf|].
    match goal with |- context [let '(r, w1) := ?b in _] => destruct b as [r w1] end.
    cbn [snd files]. apply fresh_remove_tree.
  - unfold fs_write. destruct (rmtree (files w) test_dir) as [e|fs1] eqn:Hr; [exact Hf|].
    cbn [snd files]. unfold rmtree in Hr.
    destruct (files w !! test_dir) as [[c|]|]; inversion Hr.
    by apply fresh_remove_other.
Qed.

(** C7: the data directory exists and holds the archive, the local
    data is kept, and [tempfile] picks a free name outside the data
    directory.  Then [handle_existing_data] returns, the archive is in
    place with the bytes it had, the data directory is there and holds
    nothing else, the files outside it are as they were and the
    temporary copy is gone. *)
Theorem C7_archive_survives_the_wipe (test_dir : path) (name : string)
    (c : list byte) (w : world) :
  files w !! test_dir = Some Dir →
  files w !! dirname test_dir = Some Dir →
  files w !! join test_dir name = Some (File c) →
  fresh mkdtemp_name (files w) →
  files w !! dirname mkdtemp_name = Some Dir →
  ¬ test_dir `prefix_of` mkdtemp_name →
  ∃ w' : world,
    handle_existing_data mkdtemp_name test_dir (join test_dir name) true w = (Ret tt, w')
    ∧ files w' !! join test_dir name = Some (File c)
    ∧ files w' !! test_dir = Some Dir
    ∧ (∀ k : path, test_dir `prefix_of` k → k ≠ test_dir → k ≠ join test_dir name →
                   files w' !! k = None)
    ∧ (∀ k : path, ¬ test_dir `prefix_of` k → files w' !! k = files w !! k).
Proof.
  intros Hdir Hparent Harch Hfresh Htmp_parent Hout.
  set (archive := join test_dir name).
  set (held := join mkdtemp_name (basename archive)).
  set (fs0 := files w).
  set (fs1 := <[mkdtemp_name := Dir]> fs0).
  set (fs2 := <[held := File c]> fs1).
  set (fs3 := remove_tree test_dir fs2).
  set (fs4 := <[test_dir := Dir]> fs3).
  set (fs5 := <[archive := File c]> fs4).
  (* where the paths lie *)
  assert (Hex : ∀ (k : path) (x : node), fs0 !! k = Some x → ¬ mkdtemp_name `prefix_of` k).
  { intros k x Hk Hp. pose proof (fresh_lookup _ _ _ Hfresh Hp) as Hn.
    unfold fs0 in Hk. congruence. }
  assert (Htmp_held : mkdtemp_name `prefix_of` held) by (by apply prefix_app_r).
  assert (Hheld_tmp : held ≠ mkdtemp_name).
  { unfold held, join. intros He. apply (f_equal length) in He.
    rewrite length_app in He. simpl in He. lia. }
  assert (Hheld_out : ¬ test_dir `prefix_of` held).
  { intros Hp. apply prefix_of_join in Hp as [Hp|He]; [by apply Hout|].
    apply (Hex _ _ Hdir). rewrite He. exact Htmp_held. }
  assert (Hne : test_dir ≠ []).
  { intros ->. apply Hout. apply prefix_nil. }
  assert (Harch_in : test_dir `prefix_of` archive) by (by apply prefix_app_r).
  assert (Harch_dir : archive ≠ test_dir).
  { unfold archive, join. intros He. apply (f_equal length) in He.
    rewrite length_app in He. simpl in He. lia. }
  assert (Hne_k : ∀ (k : path) (x : node), fs0 !! k = Some x → k ≠ mkdtemp_name ∧ k ≠ held).
  { intros k x Hk. split; intros ->; by apply (Hex _ _ Hk). }
  (* the steps *)
  assert (H1 : mkdir fs0 mkdtemp_name = inr fs1).
  { apply mkdir_new; [|exact Htmp_parent]. by apply (fresh_lookup _ _ _ Hfresh). }
  assert (H2 : copy2 fs1 archive mkdtemp_name = inr fs2).
  { apply copy2_into_directory.
    - apply lookup_insert_eq.
    - unfold fs1. rewrite lookup_insert_ne; [exact Harch|].
      intros He. by destruct (Hne_k _ _ Harch).
    - fold held. unfold fs1. rewrite lookup_insert_ne by done.
      by apply (fresh_lookup _ _ _ Hfresh). }
  assert (H3 : rmtree fs2 test_dir = inr fs3).
  { apply rmtree_dir. unfold fs2, fs1. destruct (Hne_k _ _ Hdir).
    by rewrite !lookup_insert_ne. }
  assert (H4 : mkdir fs3 test_dir = inr fs4).
  { apply mkdir_new; unfold fs3; rewrite lookup_remove_tree.
    - by rewrite decide_True.
    - rewrite decide_False by (by apply prefix_of_dirname).
      unfold fs2, fs1. destruct (Hne_k _ _ Hparent). by rewrite !lookup_insert_ne. }
  assert (H5 : copy2 fs4 held archive = inr fs5).
  { apply copy2_onto_new_file.
    - unfold fs4, fs3. rewrite lookup_insert_ne by done.
      rewrite lookup_remove_tree. by rewrite decide_True.
    - unfold fs4, fs3. rewrite lookup_insert_ne by (intros He; apply Hheld_out; by rewrite He).
      rewrite lookup_remove_tree, decide_False by done. apply lookup_insert_eq.
    - unfold archive. rewrite dirname_join. apply lookup_insert_eq. }
  (* the run *)
  exists {| files := remove_tree mkdtemp_name fs5;
            trace := trace w ++ [EvPrint "Copying local tarfile to temporary storage.."]
                             ++ [EvPrint "Deleting test dir to cleanup old data"]
                             ++ [EvPrint "Restoring local tarfile to test dir"] |}.
  split.
  { unfold handle_existing_data. cbn [negb].
    unfold with_TemporaryDirectory, bind, fs_write, print, emit. cbn [files trace].
    fold fs0. rewrite H1. cbn [files trace]. fold archive. rewrite H2. cbn [files trace].
    rewrite H3. cbn [files trace]. rewrite H4. cbn [files trace].
    fold held. rewrite H5. cbn [files trace]. rewrite <- !app_assoc. reflexivity. }
  cbn [files].
  split; [|split; [|split]].
  - rewrite lookup_remove_tree.
    rewrite decide_False by (by apply (Hex _ _ Harch)). apply lookup_insert_eq.
  - rewrite lookup_remove_tree.
    rewrite decide_False by (by apply (Hex _ _ Hdir)).
    unfold fs5, fs4. rewrite lookup_insert_ne by done. apply lookup_insert_eq.
  - intros k Hin Hk1 Hk2. rewrite lookup_remove_tree. case_decide; [done|].
    unfold fs5, fs4, fs3. rewrite !lookup_insert_ne by done.
    rewrite lookup_remove_tree. by rewrite decide_True.
  - intros k Hk. rewrite lookup_remove_tree. case_decide as Hp.
    + symmetry. by apply (fresh_lookup _ _ _ Hfresh).
    + unfold fs5, fs4, fs3.
      rewrite lookup_insert_ne by (intros <-; by apply Hk).
      rewrite lookup_insert_ne by (intros <-; by apply Hk).
      rewrite lookup_remove_tree, decide_False by done.
      unfold fs2, fs1.
      rewrite lookup_insert_ne by (intros <-; by apply Hp).
      rewrite lookup_insert_ne by (intros <-; by apply Hp). reflexivity.
Qed.

End Directory_preparation.

(** ** Cleaning up after a test *)

Section Cleanup.

Context (cwd : path).

Lemma Path_prefix (a b : string) : Path cwd a `prefix_of` Path cwd b → a = b.
Proof.
  intros Hp. apply prefix_of_join in Hp as [Hp|He].
  - apply prefix_length in Hp. unfold Path, join in Hp.
    rewrite length_app in Hp. simpl in Hp. lia.
  - unfold Path, join in He. by apply app_inj_tail in He as [_ ?].
Qed.

Lemma sweep_lookup (fs : fsys) (dir : string) (k : path) :
  sweep cwd fs dir !! k
  = if isdir fs (Path cwd dir) && bool_decide (Path cwd dir `prefix_of` k)
    then None else fs !! k.
Proof.
  unfold sweep, exists_, isdir, rmtree_ignore_errors, rmtree.
  destruct (fs !! Path cwd dir) as [[c|]|]; try reflexivity.
  rewrite lookup_remove_tree. cbn [andb]. by rewrite (decide_bool_decide _).
Qed.

Lemma sweeps_only_remove (ds : list string) (fs : fsys) (k : path) :
  foldl (sweep cwd) fs ds !! k = None ∨ foldl (sweep cwd) fs ds !! k = fs !! k.
Proof.
  revert fs. induction ds as [|d ds IH]; intros fs; [by right|].
  cbn [foldl]. destruct (IH (sweep cwd fs d)) as [Hn|He]; [by left|].
  rewrite He, sweep_lookup.
  destruct (isdir fs (Path cwd d) && bool_decide (Path cwd d `prefix_of` k)); auto.
Qed.

Lemma sweeps_remove_trees (ds : list string) (fs : fsys) (d : string) (k : path) :
  d ∈ ds → isdir fs (Path cwd d) = true → Path cwd d `prefix_of` k →
  foldl (sweep cwd) fs ds !! k = None.
Proof.
  revert fs. induction ds as [|d0 ds IH]; intros fs Hin Hd Hk.
  - by apply elem_of_nil in Hin.
  - cbn [foldl]. destruct (decide (d = d0)) as [<-|Hne].
    + destruct (sweeps_only_remove ds (sweep cwd fs d) k) as [Hn|He]; [exact Hn|].
      rewrite He, sweep_lookup, Hd. by rewrite bool_decide_eq_true_2.
    + apply elem_of_cons in Hin as [?|Hin]; [done|].
      apply IH; [exact Hin| |exact Hk].
      unfold isdir. rewrite sweep_lookup.
      rewrite (bool_decide_eq_false_2 (Path cwd d0 `prefix_of` Path cwd d)).
      * by rewrite andb_false_r.
      * intros Hp. apply Path_prefix in Hp. congruence.
Qed.

Lemma sweeps_frame (ds : list string) (fs : fsys) (k : path) :
  (∀ d : string, d ∈ ds → ¬ Path cwd d `prefix_of` k) →
  foldl (sweep cwd) fs ds !! k = fs !! k.
Proof.
  revert fs. induction ds as [|d0 ds IH]; intros fs Hout; [done|].
  cbn [foldl]. rewrite IH by (intros d Hd; apply Hout; by right).
  rewrite sweep_lookup, bool_decide_eq_false_2; [by rewrite andb_false_r|].
  apply Hout. by left.
Qed.

Lemma sweeps_leave_no_directory (ds : list string) (fs : fsys) (d : string) :
  d ∈ ds → isdir (foldl (sweep cwd) fs ds) (Path cwd d) = false.
Proof.
  intros Hin. destruct (isdir fs (Path cwd d)) eqn:Hd.
  - unfold isdir. by rewrite (sweeps_remove_trees ds fs d).
  - unfold isdir in *.
    destruct (sweeps_only_remove ds fs (Path cwd d)) as [->| ->]; done.
Qed.

Lemma teardown_loop (ds : list string) (w : world) :
  for_each ds (λ dir,
    let! e := Path_exists cwd dir in
    if e then λ w, (Ret tt, {| files := rmtree_ignore_errors (files w) (Path cwd dir);
                               trace := trace w |})
    else ret tt) w
  = (Ret tt, {| files := foldl (sweep cwd) (files w) ds; trace := trace w |}).
Proof.
  revert w. induction ds as [|d ds IH]; intros w; [by destruct w|].
  cbn [for_each foldl]. unfold bind at 1. unfold bind at 1. unfold Path_exists at 1.
  unfold sweep at 2.
  destruct (exists_ (files w) (Path cwd d)); unfold ret; rewrite IH; [done|by destruct w].
Qed.

Lemma cleanup_setup_spec (w : world) :
  cleanup_setup cwd w
  = if existsb (λ d, exists_ (files w) (Path cwd d)) cleanup_dirs
    then (Raise AssertionError, w) else (Ret tt, w).
Proof.
  unfold cleanup_setup, bind, Path_exists, assert, cleanup_dirs, raise, ret.
  cbn [existsb].
  destruct (exists_ (files w) (Path cwd "lightning_logs"));
    cbn -[exists_ Path]; [reflexivity|].
  destruct (exists_ (files w) (Path cwd "NeMo_experiments"));
    cbn -[exists_ Path]; [reflexivity|].
  destruct (exists_ (files w) (Path cwd "nemo_experiments")); reflexivity.
Qed.

(** C10: if one of the three directories is there when a test
    starts, the fixture fails with [AssertionError] and the test does
    not run.  If none is, the test runs on those files, and after it
    each of the three that the test left as a directory is gone with
    all it held, none of them is a directory, and the other files are
    as the test left them. *)
Theorem C10_cleanup_local_folder_guards_and_sweeps (A : Type) (test : M A) (w : world) :
  ((∃ d : string, d ∈ cleanup_dirs ∧ exists_ (files w) (Path cwd d) = true) →
     cleanup_local_folder cwd test w = (Raise AssertionError, w))
  ∧ ((∀ d : string, d ∈ cleanup_dirs → exists_ (files w) (Path cwd d) = false) →
     ∃ w' : world,
       cleanup_local_folder cwd test w = ((test w).1, w')
       ∧ trace w' = trace (test w).2
       ∧ (∀ d : string, d ∈ cleanup_dirs → isdir (files w') (Path cwd d) = false)
       ∧ (∀ (d : string) (k : path), d ∈ cleanup_dirs →
            isdir (files (test w).2) (Path cwd d) = true →
            Path cwd d `prefix_of` k → files w' !! k = None)
       ∧ (∀ k : path, (∀ d : string, d ∈ cleanup_dirs → ¬ Path cwd d `prefix_of` k) →
            files w' !! k = files (test w).2 !! k)).
Proof.
  split.
  - intros (d & Hin & Hd). unfold cleanup_local_folder, around, bind.
    rewrite cleanup_setup_spec.
    replace (existsb (λ d, exists_ (files w) (Path cwd d)) cleanup_dirs) with true; [done|].
    symmetry. apply existsb_exists. exists d. split; [by apply list_elem_of_In|exact Hd].
  - intros Hnone. unfold cleanup_local_folder, around, bind.
    rewrite cleanup_setup_spec.
    replace (existsb (λ d, exists_ (files w) (Path cwd d)) cleanup_dirs) with false.
    + destruct (test w) as [r w1]. unfold cleanup_teardown. rewrite teardown_loop.
      eexists. split; [reflexivity|]. cbn [fst snd files trace].
      split; [reflexivity|]. split; [|split].
      * intros d Hin. by apply sweeps_leave_no_directory.
      * intros d k Hin Hd Hk. by apply (sweeps_remove_trees _ _ d).
      * intros k Hout. by apply sweeps_frame.
    + symmetry. apply not_true_is_false. intros He.
      apply existsb_exists in He as (d & Hin & Hd).
      apply list_elem_of_In in Hin. rewrite (Hnone d Hin) in Hd. discriminate.
Qed.

End Cleanup.

(** ** The theorems at concrete runs *)

Section Witnesses.

Import Examples.

(** A test for "GPU" in a run with [--cpu]. *)
Lemma C8_witness_gpu_test_on_cpu :
  get_closest_marker (gpu_only_test on_cpu) "run_only_on"
    = Some {| mark_name := "run_only_on"; mark_args := [PyStr "GPU"] |}
  ∧ [PyStr "GPU"] !! 0%nat = Some (PyStr "GPU")
  ∧ is_skipped (run_only_on_device_fixture (gpu_only_test on_cpu)
                  (device (gpu_only_test on_cpu)) (start checkout)).1 = true.
Proof.
  split; [reflexivity|]. split; [reflexivity|].
  destruct (C8_run_only_on_skips_iff_device_differs (gpu_only_test on_cpu)
              {| mark_name := "run_only_on"; mark_args := [PyStr "GPU"] |}
              (PyStr "GPU") (start checkout) eq_refl eq_refl) as (_ & Hiff & _).
  apply Hiff. discriminate.
Defined.

(** [--use_local_test_data] on a checkout without test data. *)
Lemma C2_witness_checkout_without_data :
  use_local_test_data local_only = true
  ∧ files (start checkout) !! test_data_archive tests_dir = None
  ∧ pytest_configure tests_dir unreachable one_file_tar local_only (start checkout)
    = (Exit "Test data `{test_data_archive}` is not present in the system",
       log_to (start checkout) marker_lines).
Proof.
  split; [reflexivity|]. split; [vm_compute; reflexivity|].
  apply C2_local_only_without_archive_exits; [reflexivity | vm_compute; reflexivity].
Defined.

(** Two sessions in a row against a release of the cached size. *)
Lemma C5_witness_two_quiet_sessions :
  use_local_test_data no_flags = false
  ∧ serving same_size_release test_data_url = Some same_size_release
  ∧ content_length same_size_release
    = Len (local_size_of (files (start cached)) (test_data_archive tests_dir))
  ∧ ∃ evs : list event,
      sessions tests_dir (serving same_size_release) one_file_tar 2 no_flags (start cached)
      = (Ret tt, log_to (start cached) evs)
      ∧ Forall (λ ev, is_download ev = false ∧ is_extract ev = false) evs.
Proof.
  split; [reflexivity|]. split; [reflexivity|]. split; [vm_compute; reflexivity|].
  apply (C5_equal_sizes_never_download tests_dir (serving same_size_release)
           one_file_tar no_flags (start cached) same_size_release 2);
    [reflexivity | reflexivity | vm_compute; reflexivity].
Defined.


(** The cached archive kept through the wipe of the data directory. *)
Lemma C7_witness_cached_archive_kept :
  files (start cached) !! data_dir = Some Dir
  ∧ files (start cached) !! dirname data_dir = Some Dir
  ∧ files (start cached) !! join data_dir "test_data.tar.gz" = Some (File [x01; x02]%byte)
  ∧ fresh tmp_dir (files (start cached))
  ∧ files (start cached) !! dirname tmp_dir = Some Dir
  ∧ ¬ data_dir `prefix_of` tmp_dir
  ∧ ∃ w' : world,
      handle_existing_data tmp_dir data_dir (join data_dir "test_data.tar.gz") true
        (start cached) = (Ret tt, w')
      ∧ files w' !! join data_dir "test_data.tar.gz" = Some (File [x01; x02]%byte)
      ∧ files w' !! data_dir = Some Dir
      ∧ (∀ k : path, data_dir `prefix_of` k → k ≠ data_dir →
                     k ≠ join data_dir "test_data.tar.gz" → files w' !! k = None)
      ∧ (∀ k : path, ¬ data_dir `prefix_of` k →
                     files w' !! k = files (start cached) !! k).
Proof.
  assert (Hfresh : fresh tmp_dir (files (start cached))).
  { apply (bool_decide_unpack _). vm_compute. reflexivity. }
  assert (Hout : ¬ data_dir `prefix_of` tmp_dir).
  { apply (bool_decide_unpack _). vm_compute. reflexivity. }
  split; [vm_compute; reflexivity|]. split; [vm_compute; reflexivity|].
  split; [vm_compute; reflexivity|]. split; [exact Hfresh|].
  split; [vm_compute; reflexivity|]. split; [exact Hout|].
  apply (C7_archive_survives_the_wipe tmp_dir data_dir "test_data.tar.gz"
           [x01; x02]%byte (start cached));
    [vm_compute; reflexivity | vm_compute; reflexivity | vm_compute; reflexivity
    | exact Hfresh | vm_compute; reflexivity | exact Hout].
Defined.

(** Keeping the local data when there is no archive to keep: the copy
    raises inside the block, and the temporary directory is gone all
    the same. *)
Lemma C9_witness_copy_fails :
  fresh tmp_dir (files (start checkout))
  ∧ (handle_existing_data tmp_dir data_dir archive true (start checkout)).1
    = Raise (FileNotFoundError archive)
  ∧ fresh tmp_dir
      (files (handle_existing_data tmp_dir data_dir archive true (start checkout)).2).
Proof.
  assert (Hfresh : fresh tmp_dir (files (start checkout))).
  { apply (bool_decide_unpack _). vm_compute. reflexivity. }
  split; [exact Hfresh|]. split; [vm_compute; reflexivity|].
  apply (C9_temporary_directory_is_removed tmp_dir data_dir archive true
           (start checkout) Hfresh).
Defined.

(** A test that writes a log directory, started on a clean checkout. *)
Lemma C10_witness_logging_test :
  (∀ d : string, d ∈ cleanup_dirs →
     exists_ (files (start checkout)) (Path work_dir d) = false)
  ∧ isdir (files (logging_test (start checkout)).2) (Path work_dir "lightning_logs") = true
  ∧ ∃ w' : world,
      cleanup_local_folder work_dir logging_test (start checkout)
      = ((logging_test (start checkout)).1, w')
      ∧ files w' !! Path work_dir "lightning_logs" = None
      ∧ files w' !! (Path work_dir "lightning_logs" ++ ["v0"%string]) = None.
Proof.
  assert (Hclean : ∀ d : string, d ∈ cleanup_dirs →
            exists_ (files (start checkout)) (Path work_dir d) = false).
  { intros d Hd. unfold cleanup_dirs in Hd.
    repeat (apply elem_of_cons in Hd as [->|Hd]; [vm_compute; reflexivity|]).
    by apply elem_of_nil in Hd. }
  assert (Hleft : isdir (files (logging_test (start checkout)).2)
                    (Path work_dir "lightning_logs") = true)
    by (vm_compute; reflexivity).
  split; [exact Hclean|]. split; [exact Hleft|].
  destruct (proj2 (C10_cleanup_local_folder_guards_and_sweeps work_dir unit
                     logging_test (start checkout)) Hclean)
    as (w' & Hrun & _ & _ & Hgone & _).
  exists w'. split; [exact Hrun|]. split.
  - apply (Hgone "lightning_logs"%string); [by left | exact Hleft | done].
  - apply (Hgone "lightning_logs"%string); [by left | exact Hleft | by apply prefix_app_r].
Defined.

End Witnesses.

(** * Further properties of the module *)

(** ** Gating *)

(** X2: the two flag-gated fixtures skip a test exactly when it has the
    marker and the run lacks the flag; they never raise and never touch
    the world. *)
Theorem flag_fixtures_skip_iff_marked_and_flag_absent (req : request) (w : world) :
  (is_skipped (downloads_weights req w).1 = true
   ↔ marked req "with_downloads" = true ∧ with_downloads (config_of req) = false)
  ∧ (is_skipped (run_nightly_test_for_qa req w).1 = true
     ↔ marked req "nightly" = true ∧ nightly (config_of req) = false)
  ∧ (is_skipped (downloads_weights req w).1 = false → downloads_weights req w = (Ret tt, w))
  ∧ (is_skipped (run_nightly_test_for_qa req w).1 = false
     → run_nightly_test_for_qa req w = (Ret tt, w))
  ∧ (downloads_weights req w).2 = w
  ∧ (run_nightly_test_for_qa req w).2 = w.
Proof.
  unfold downloads_weights, run_nightly_test_for_qa, marked.
  destruct (get_closest_marker req "with_downloads"),
           (get_closest_marker req "nightly"),
           (with_downloads (config_of req)), (nightly (config_of req));
    cbn; repeat split; try done; intros [? ?]; done.
Qed.

(** X3: the three gating fixtures all let a test through exactly when its
    closest [run_only_on] marker, if any, names the device of the run as
    its first argument, and each of the markers [with_downloads] and
    [nightly] it has comes with its flag.  A [run_only_on] marker
    without an argument does not let the test through. *)
Theorem gates_open_iff (req : request) (w : world) :
  (run_only_on_device_fixture req (device req) w = (Ret tt, w)
   ∧ downloads_weights req w = (Ret tt, w)
   ∧ run_nightly_test_for_qa req w = (Ret tt, w))
  ↔ (match get_closest_marker req "run_only_on" with
     | Some marker => mark_args marker !! 0%nat = Some (PyStr (device req))
     | None => True
     end
     ∧ (marked req "with_downloads" = true → with_downloads (config_of req) = true)
     ∧ (marked req "nightly" = true → nightly (config_of req) = true)).
Proof.
  assert (Hdev : run_only_on_device_fixture req (device req) w = (Ret tt, w)
                 ↔ match get_closest_marker req "run_only_on" with
                   | Some marker => mark_args marker !! 0%nat = Some (PyStr (device req))
                   | None => True
                   end).
  { unfold run_only_on_device_fixture, py_ne.
    destruct (get_closest_marker req "run_only_on") as [m|]; [|done].
    destruct (mark_args m !! 0%nat) as [arg|]; [|split; discriminate].
    destruct (decide (arg = PyStr (device req))) as [->|Hne].
    - rewrite bool_decide_eq_false_2 by (intros Hn; by apply Hn). done.
    - rewrite bool_decide_eq_true_2 by done. split; [discriminate|].
      intros [= He]. by destruct Hne. }
  rewrite Hdev. unfold downloads_weights, run_nightly_test_for_qa, marked.
  destruct (get_closest_marker req "with_downloads"),
           (get_closest_marker req "nightly"),
           (with_downloads (config_of req)), (nightly (config_of req));
    cbn; split; intros (H1 & H2 & H3); repeat split; try done;
    try (by specialize (H2 eq_refl)); try (by specialize (H3 eq_refl)).
Qed.

(** ** The k2 fixtures *)

(** X4: [k2_cuda_is_enabled] on the result of [k2_is_appropriate] returns
    true exactly when k2 imports, CUDA is available and k2 was built with
    CUDA.  Neither fixture raises; the failed import is logged, and its
    message is the one passed on. *)
Theorem k2_cuda_enabled_iff (env : k2_env) (w : world) :
  ∃ msg : string,
    bind (k2_is_appropriate env) (k2_cuda_is_enabled env) w
    = (Ret (k2_importable env && cuda_is_available env && k2_with_cuda env, msg),
       log_to w (if k2_importable env then [] else [EvLogError "{e}"]))
    ∧ (k2_importable env = false
       → msg = "k2 is not available or does not meet the requirements."%string).
Proof.
  unfold k2_is_appropriate, k2_cuda_is_enabled, bind, logging_exception, emit, ret, log_to.
  destruct w as [f t].
  destruct (k2_importable env), (cuda_is_available env), (k2_with_cuda env); cbn;
    eexists; (split; [rewrite ?app_nil_r; reflexivity | done]).
Qed.

(** ** What the set-up asks of the network *)

Lemma events_since_log (w w' : world) (evs : list event) :
  trace w' = trace w ++ evs → events_since w w' = evs.
Proof. unfold events_since. intros ->. by rewrite drop_app_length. Qed.

Lemma local_size_of_getsize (fs : fsys) (p : path) :
  match getsize fs p with
  | inr n => local_size_of fs p = n ∧ n ≠ -1
  | inl e => local_size_of fs p = -1 ∧ is_OSError e = true
  end.
Proof.
  unfold local_size_of. destruct (getsize fs p) as [e|n] eqn:Hg.
  - split; [done|]. unfold getsize in Hg.
    destruct (fs !! p) as [[c|]|]; inversion Hg. reflexivity.
  - split; [done|]. by apply (getsize_not_sentinel fs p).
Qed.

Lemma extract_tar_trace (tar_decode : list byte → option members) (a d : path) (w : world) :
  trace (extract_tar tar_decode a d w).2 = trace w ++ [EvExtract a d].
Proof.
  unfold extract_tar, bind, emit, fs_read, fs_step, raise. cbn -[read_file extractall].
  destruct (read_file (files w) a) as [e|c]; cbn -[extractall]; [done|].
  destruct (tar_decode c) as [ms|]; cbn -[extractall]; [|done].
  by destruct (extractall ms d (files w)) as [fs' [e|]].
Qed.

Lemma urlretrieve_trace (remote : string → option http_response) (url : string)
    (filename : path) (w : world) :
  trace (urlretrieve remote url filename w).2 = trace w ++ [EvUrlretrieve url filename].
Proof.
  unfold urlretrieve, bind, emit, fs_write, raise, ret. cbn -[write_file].
  destruct (remote url) as [u|]; cbn -[write_file]; [|done].
  destruct (write_file (files w) filename []) as [e|fs1]; cbn -[write_file]; [done|].
  destruct (content_length u) as [| |n]; cbn -[write_file Z.leb Z.ltb]; [|done|].
  - by destruct (write_file fs1 filename (body u)).
  - destruct (write_file fs1 filename (body u)); cbn -[Z.leb Z.ltb]; [done|].
    by destruct ((0 <=? n) && (Z.of_nat (length (body u)) <? n)).
Qed.

Lemma download_and_extract_data_trace (remote : string → option http_response)
    (tar_decode : list byte → option members) (d a : path) (url : string) (w : world) :
  ∃ rest : list event,
    trace (download_and_extract_data remote tar_decode d a url w).2
    = trace w ++ EvUrlretrieve url a :: rest
    ∧ Forall (λ ev, is_network ev = false) rest.
Proof.
  unfold download_and_extract_data, bind.
  pose proof (urlretrieve_trace remote url a w) as Ht.
  destruct (urlretrieve remote url a w) as [[[]|e|s|s] w1]; cbn [snd] in Ht;
    cbn -[extract_tar].
  - exists [EvExtract a d]. rewrite extract_tar_trace, Ht, <- app_assoc.
    split; [done|]. by repeat constructor.
  - exists []. rewrite Ht. by split.
  - exists []. rewrite Ht. by split.
  - exists []. rewrite Ht. by split.
Qed.

Section Queries.

Context (conftest_dir : path)
        (remote : string → option http_response)
        (tar_decode : list byte → option members).

Lemma get_test_data_sizes_remote_known' (config : options) (p : path) (w : world) (r : Z) :
  use_local_test_data config = false →
  queried_size remote = Some r →
  get_test_data_sizes remote config p w
  = (Ret (local_size_of (files w) p, r), log_to w [EvUrlopen test_data_url]).
Proof.
  intros Hl Hq. unfold queried_size in Hq.
  destruct (remote test_data_url) as [u|] eqn:Hu; [|done].
  destruct (content_length u) as [| |n] eqn:Hn; try done. injection Hq as ->.
  by apply (get_test_data_sizes_remote_known remote config p w u r).
Qed.

Lemma remote_query_outcome (w : world) :
  bind (urlopen remote test_data_url) (λ u, int_content_length u) w
  = (match remote test_data_url with
     | Some u =>
         match content_length u with
         | Len n => Ret n
         | BadHeader => Raise ValueError
         | NoHeader => Raise TypeError
         end
     | None => Raise (URLError test_data_url)
     end,
     log_to w [EvUrlopen test_data_url]).
Proof.
  unfold urlopen, int_content_length, bind, emit, raise, ret, log_to.
  destruct (remote test_data_url) as [u|]; cbn; [|done].
  by destruct (content_length u).
Qed.

Lemma get_test_data_sizes_remote_fails (config : options) (p : path) (w : world) :
  use_local_test_data config = false →
  queried_size remote = None →
  get_test_data_sizes remote config p w
  = (if bool_decide (local_size_of (files w) p = -1)
     then Exit "Test data not present and cannot access the '{url}' URL"
     else Raise (NameError "test_dir"),
     log_to w [ EvUrlopen test_data_url;
                EvLogError "Failed to retrieve remote test data size: {e}" ]).
Proof.
  intros Hl Hq.
  assert (Hfail : ∃ e, bind (urlopen remote test_data_url) (λ u, int_content_length u) w
                       = (Raise e, log_to w [EvUrlopen test_data_url])).
  { rewrite remote_query_outcome. unfold queried_size in Hq.
    destruct (remote test_data_url) as [u|]; [|by eexists].
    destruct (content_length u); [by eexists|by eexists|done]. }
  destruct Hfail as [e0 Hfail].
  assert (Hloc : try_except (fs_read (λ fs, getsize fs p)) is_OSError (λ _, ret (-1)) w
                 = (Ret (local_size_of (files w) p), w)).
  { pose proof (local_size_of_getsize (files w) p) as Hs.
    unfold try_except, fs_read. destruct (getsize (files w) p) as [e|n]; destruct Hs as [Hs Hs'].
    - by rewrite Hs', Hs.
    - by rewrite Hs. }
  unfold get_test_data_sizes. unfold bind at 1. rewrite Hloc. rewrite Hl. cbn [negb].
  change (__TEST_DATA_URL +:+ __TEST_DATA_FILENAME)%string with test_data_url.
  unfold bind at 1. unfold try_except at 1. rewrite Hfail.
  unfold is_Exception, lift, fs_read, logging_error, emit, pytest_exit, print.
  destruct (bool_decide (local_size_of (files w) p = -1));
    repeat eval_fstring; cbn; unfold log_to; cbn; rewrite <- ?app_assoc; reflexivity.
Qed.

Ltac configure_start :=
  unfold pytest_configure;
  do 3 (unfold bind at 1; unfold addinivalue_line at 1, emit at 1);
  unfold bind at 1;
  change (join (join conftest_dir __TEST_DATA_SUBDIR) __TEST_DATA_FILENAME)
    with (test_data_archive conftest_dir);
  change (join conftest_dir __TEST_DATA_SUBDIR) with (test_data_dir conftest_dir).

Lemma local_only_run (config : options) (w : world) :
  use_local_test_data config = true →
  local_size_of (files w) (test_data_archive conftest_dir) ≠ -1 →
  pytest_configure conftest_dir remote tar_decode config w
  = (extract_tar tar_decode (test_data_archive conftest_dir) (test_data_dir conftest_dir)
     >> numba_step config)
      (log_to w (marker_lines ++ [EvPrint using_local_message])).
Proof.
  intros Hl Hs. configure_start.
  rewrite (get_test_data_sizes_local_only _ _ _ _ Hl).
  cbn [files trace fst snd]. rewrite Hl. cbn [negb]. rewrite (bool_decide_eq_false_2 _ Hs).
  unfold bind at 1. unfold bind at 1. unfold bind at 1.
  unfold lift, fs_read, print, emit. eval_fstring.
  cbn [files trace]. unfold bind, numba_step, log_to, marker_lines, using_local_message.
  cbn [files trace]. rewrite <- !app_assoc. reflexivity.
Qed.

Lemma local_only_exit (config : options) (w : world) :
  use_local_test_data config = true →
  local_size_of (files w) (test_data_archive conftest_dir) = -1 →
  pytest_configure conftest_dir remote tar_decode config w
  = (Exit "Test data `{test_data_archive}` is not present in the system",
     log_to w marker_lines).
Proof.
  intros Hl Hs. configure_start.
  rewrite (get_test_data_sizes_local_only _ _ _ _ Hl).
  cbn [files trace fst snd]. rewrite Hs, Hl.
  unfold log_to, marker_lines. rewrite <- !app_assoc. reflexivity.
Qed.

Lemma failed_query_run (config : options) (w : world) :
  use_local_test_data config = false →
  queried_size remote = None →
  pytest_configure conftest_dir remote tar_decode config w
  = (if bool_decide (local_size_of (files w) (test_data_archive conftest_dir) = -1)
     then Exit "Test data not present and cannot access the '{url}' URL"
     else Raise (NameError "test_dir"),
     log_to w (marker_lines ++
               [ EvUrlopen test_data_url;
                 EvLogError "Failed to retrieve remote test data size: {e}" ])).
Proof.
  intros Hl Hq. configure_start.
  rewrite (get_test_data_sizes_remote_fails _ _ _ Hl Hq). cbn [files trace].
  destruct (bool_decide (local_size_of (files w) (test_data_archive conftest_dir) = -1));
    unfold log_to, marker_lines; cbn [files trace]; rewrite <- !app_assoc; reflexivity.
Qed.

Lemma download_run (config : options) (w : world) (r : Z) :
  use_local_test_data config = false →
  queried_size remote = Some r →
  r ≠ local_size_of (files w) (test_data_archive conftest_dir) →
  pytest_configure conftest_dir remote tar_decode config w
  = (download_and_extract_data remote tar_decode (test_data_dir conftest_dir)
       (test_data_archive conftest_dir) test_data_url
     >> numba_step config)
      (log_to w (marker_lines ++ [EvUrlopen test_data_url])).
Proof.
  intros Hl Hq Hr. configure_start.
  rewrite (get_test_data_sizes_remote_known' _ _ _ _ Hl Hq).
  cbn [files trace fst snd log_to]. rewrite Hl. cbn [negb].
  rewrite (bool_decide_eq_true_2 _ Hr).
  unfold bind at 1. unfold ret at 1. unfold bind at 1.
  change (__TEST_DATA_URL +:+ __TEST_DATA_FILENAME)%string with test_data_url.
  unfold bind, numba_step, log_to, marker_lines. cbn [files trace].
  rewrite <- !app_assoc. reflexivity.
Qed.

Lemma quiet_run (config : options) (w : world) :
  use_local_test_data config = false →
  queried_size remote = Some (local_size_of (files w) (test_data_archive conftest_dir)) →
  pytest_configure conftest_dir remote tar_decode config w
  = (Ret tt, log_to w (quiet_events config)).
Proof.
  intros Hl Hq. unfold queried_size in Hq.
  destruct (remote test_data_url) as [u|] eqn:Hu; [|done].
  destruct (content_length u) as [| |n] eqn:Hn; try done. injection Hq as ->.
  by apply (session_with_equal_sizes conftest_dir remote tar_decode config w u).
Qed.

Lemma then_numba_trace {A} (m : M A) (config : options) (w0 : world) (evs : list event) :
  trace (m w0).2 = trace w0 ++ evs →
  ∃ tail : list event,
    trace ((m >> numba_step config) w0).2 = trace w0 ++ evs ++ tail
    ∧ Forall (λ ev, is_network ev = false) tail.
Proof.
  intros Ht. unfold bind. destruct (m w0) as [[a|e|s|s] w1]; cbn [snd] in Ht.
  - rewrite numba_step_spec. exists (numba_events config). unfold log_to. cbn.
    rewrite Ht, <- app_assoc. split; [done|].
    unfold numba_events. destruct (relax_numba_compat config); by repeat constructor.
  - exists []. cbn. by rewrite Ht, app_nil_r.
  - exists []. cbn. by rewrite Ht, app_nil_r.
  - exists []. cbn. by rewrite Ht, app_nil_r.
Qed.

Lemma local_size_sentinel_iff (fs : fsys) (p : path) :
  local_size_of fs p = -1 ↔ fs !! p = None.
Proof.
  pose proof (local_size_of_getsize fs p) as Hs. unfold getsize in Hs.
  destruct (fs !! p) as [[c|]|]; destruct Hs as [Hs Hs']; split; try done;
    intros He; rewrite He in Hs; by destruct Hs'.
Qed.

Lemma none_of_kind (kind : event → bool) (evs : list event) :
  Forall (λ ev, kind ev = false) evs →
  ¬ Exists (λ ev, kind ev = true) evs.
Proof.
  intros Hf He. apply Exists_exists in He as (ev & Hin & Hev).
  rewrite Forall_forall in Hf. specialize (Hf ev Hin). congruence.
Qed.

(** X5: [get_test_data_sizes] only reads: it leaves every file as it was
    and logs neither a download nor an extraction.  When it returns, the
    first size is the size of the file, or -1 if the file cannot be read;
    the second is -1 with [--use_local_test_data], with no event logged,
    and the length the remote host reported without. *)
Theorem get_test_data_sizes_only_reads (config : options) (p : path) (w : world) :
  files (get_test_data_sizes remote config p w).2 = files w
  ∧ Forall (λ ev, is_download ev = false ∧ is_extract ev = false)
      (events_since w (get_test_data_sizes remote config p w).2)
  ∧ (∀ l r : Z, (get_test_data_sizes remote config p w).1 = Ret (l, r) →
       l = local_size_of (files w) p
       ∧ (l = -1 ↔ files w !! p = None)
       ∧ if use_local_test_data config
         then r = -1 ∧ (get_test_data_sizes remote config p w).2 = w
         else queried_size remote = Some r).
Proof.
  destruct (use_local_test_data config) eqn:Hl.
  - rewrite (get_test_data_sizes_local_only remote config p w Hl). cbn [fst snd].
    split; [done|]. split.
    + unfold events_since. rewrite drop_all. constructor.
    + intros l r [= <- <-]. split; [done|]. split; [apply local_size_sentinel_iff|done].
  - destruct (queried_size remote) as [r0|] eqn:Hq.
    + rewrite (get_test_data_sizes_remote_known' config p w r0 Hl Hq). cbn [fst snd].
      split; [done|]. split.
      * rewrite (events_since_log w _ [EvUrlopen test_data_url]) by done.
        by repeat constructor.
      * intros l r [= <- <-]. split; [done|]. split; [apply local_size_sentinel_iff|done].
    + rewrite (get_test_data_sizes_remote_fails config p w Hl Hq). cbn [fst snd].
      split; [done|]. split.
      * erewrite events_since_log by done. by repeat constructor.
      * intros l r Hret. by destruct (bool_decide (local_size_of (files w) p = -1)).
Qed.

(** X6: without [--use_local_test_data], when the remote query yields no
    size (the host cannot be reached, or the response has no usable
    [Content-Length]), the set-up never returns: it exits the session
    exactly when there is no archive on disk, and raises [NameError]
    otherwise.  Either way the files are as before and the query and the
    error line are all that follows the markers in the log. *)
Theorem failed_query_aborts_the_setup (config : options) (w : world) :
  use_local_test_data config = false →
  queried_size remote = None →
  ((pytest_configure conftest_dir remote tar_decode config w).1
     = Exit "Test data not present and cannot access the '{url}' URL"
   ↔ files w !! test_data_archive conftest_dir = None)
  ∧ ((pytest_configure conftest_dir remote tar_decode config w).1
       = Raise (NameError "test_dir")
     ↔ files w !! test_data_archive conftest_dir ≠ None)
  ∧ files (pytest_configure conftest_dir remote tar_decode config w).2 = files w
  ∧ events_since w (pytest_configure conftest_dir remote tar_decode config w).2
    = marker_lines ++ [ EvUrlopen test_data_url;
                        EvLogError "Failed to retrieve remote test data size: {e}" ].
Proof.
  intros Hl Hq. rewrite (failed_query_run config w Hl Hq). cbn [fst snd].
  pose proof (local_size_sentinel_iff (files w) (test_data_archive conftest_dir)) as Hs.
  split; [|split; [|split]].
  - case_bool_decide as Hb; split; try done.
    + intros _. by apply Hs.
    + intros Hn. destruct Hb. by apply Hs.
  - case_bool_decide as Hb; split; try done.
    + intros Hn. destruct Hn. by apply Hs.
    + intros _ Hn. destruct Hb. by apply Hs.
  - done.
  - by apply events_since_log.
Qed.

(** X7: a download is attempted in a session exactly when
    [--use_local_test_data] is absent and the remote host reported a
    length that differs from the size of the archive on disk (-1 when it
    cannot be read). *)
Theorem download_exactly_when_sizes_differ (config : options) (w : world) :
  Exists (λ ev, is_download ev = true)
    (events_since w (pytest_configure conftest_dir remote tar_decode config w).2)
  ↔ use_local_test_data config = false
    ∧ ∃ r : Z, queried_size remote = Some r
               ∧ r ≠ local_size_of (files w) (test_data_archive conftest_dir).
Proof.
  destruct (use_local_test_data config) eqn:Hl.
  - split; [|by intros [? _]]. intros He. exfalso. revert He. apply (none_of_kind is_download).
    destruct (decide (local_size_of (files w) (test_data_archive conftest_dir) = -1))
      as [Hs|Hs].
    + rewrite (local_only_exit config w Hl Hs). cbn [snd].
      rewrite (events_since_log w _ marker_lines) by done. by repeat constructor.
    + rewrite (local_only_run config w Hl Hs).
      destruct (then_numba_trace
                  (extract_tar tar_decode (test_data_archive conftest_dir)
                     (test_data_dir conftest_dir)) config
                  (log_to w (marker_lines ++ [EvPrint using_local_message]))
                  [EvExtract (test_data_archive conftest_dir) (test_data_dir conftest_dir)]
                  (extract_tar_trace _ _ _ _)) as (tail & Ht & Htail).
      erewrite events_since_log; [|rewrite Ht; cbn [log_to trace]; by rewrite <- !app_assoc].
      repeat (apply Forall_app; split); try by repeat constructor.
      eapply Forall_impl; [exact Htail|]. by intros [].
  - destruct (queried_size remote) as [r|] eqn:Hq.
    + destruct (decide (r = local_size_of (files w) (test_data_archive conftest_dir)))
        as [->|Hr].
      * split; [|by intros (_ & r & [= <-] & Hn)]. intros He. exfalso. revert He.
        apply (none_of_kind is_download). rewrite (quiet_run config w Hl Hq). cbn [snd].
        rewrite (events_since_log w _ (quiet_events config)) by done.
        eapply Forall_impl; [apply quiet_events_quiet|]. by intros ev [? _].
      * split; [intros _; split; [done|]; by exists r|]. intros _.
        rewrite (download_run config w r Hl Hq Hr).
        destruct (download_and_extract_data_trace remote tar_decode
                    (test_data_dir conftest_dir) (test_data_archive conftest_dir)
                    test_data_url (log_to w (marker_lines ++ [EvUrlopen test_data_url])))
          as (rest & Hd & _).
        destruct (then_numba_trace _ config _ _ Hd) as (tail & Ht & _).
        erewrite events_since_log; [|rewrite Ht; cbn [log_to trace]; by rewrite <- !app_assoc].
        apply Exists_exists.
        exists (EvUrlretrieve test_data_url (test_data_archive conftest_dir)).
        split; [|reflexivity]. rewrite !elem_of_app.
        right. right. left. by left.
    + split; [|by intros (_ & r & ? & _)]. intros He. exfalso. revert He.
      apply (none_of_kind is_download). rewrite (failed_query_run config w Hl Hq). cbn [snd].
      erewrite events_since_log by done. by repeat constructor.
Qed.

(** X8: a session calls the network exactly when [--use_local_test_data] is
    absent, whatever is on disk and whatever the host answers. *)
Theorem network_used_exactly_without_local_flag (config : options) (w : world) :
  Exists (λ ev, is_network ev = true)
    (events_since w (pytest_configure conftest_dir remote tar_decode config w).2)
  ↔ use_local_test_data config = false.
Proof.
  destruct (use_local_test_data config) eqn:Hl.
  - split; [|done]. intros He. exfalso. revert He. apply (none_of_kind is_network).
    destruct (decide (local_size_of (files w) (test_data_archive conftest_dir) = -1))
      as [Hs|Hs].
    + rewrite (local_only_exit config w Hl Hs). cbn [snd].
      rewrite (events_since_log w _ marker_lines) by done. by repeat constructor.
    + rewrite (local_only_run config w Hl Hs).
      destruct (then_numba_trace
                  (extract_tar tar_decode (test_data_archive conftest_dir)
                     (test_data_dir conftest_dir)) config
                  (log_to w (marker_lines ++ [EvPrint using_local_message]))
                  [EvExtract (test_data_archive conftest_dir) (test_data_dir conftest_dir)]
                  (extract_tar_trace _ _ _ _)) as (tail & Ht & Htail).
      erewrite events_since_log; [|rewrite Ht; cbn [log_to trace]; by rewrite <- !app_assoc].
      repeat (apply Forall_app; split); by repeat constructor.
  - split; [done|]. intros _.
    assert (Hq : ∃ rest, events_since w
                   (pytest_configure conftest_dir remote tar_decode config w).2
                 = marker_lines ++ EvUrlopen test_data_url :: rest).
    { destruct (queried_size remote) as [r|] eqn:Hq.
      - destruct (decide (r = local_size_of (files w) (test_data_archive conftest_dir)))
          as [->|Hr].
        + rewrite (quiet_run config w Hl Hq). cbn [snd]. eexists.
          by apply events_since_log.
        + rewrite (download_run config w r Hl Hq Hr).
          destruct (download_and_extract_data_trace remote tar_decode
                      (test_data_dir conftest_dir) (test_data_archive conftest_dir)
                      test_data_url (log_to w (marker_lines ++ [EvUrlopen test_data_url])))
            as (rest & Hd & _).
          destruct (then_numba_trace _ config _ _ Hd) as (tail & Ht & _).
          eexists. apply events_since_log. rewrite Ht. cbn [log_to trace].
          rewrite <- !app_assoc. reflexivity.
      - rewrite (failed_query_run config w Hl Hq). cbn [snd]. eexists.
        apply events_since_log. cbn [log_to trace]. reflexivity. }
    destruct Hq as [rest ->]. apply Exists_app. right. by constructor.
Qed.

End Queries.

(** ** A download and the session after it *)

Lemma extractall_keeps_file (ms : members) (d : path) (fs fs' : fsys)
    (p : path) (c : list byte) :
  extractall ms d fs = (fs', None) →
  Forall (λ m, d ++ m.1 ≠ p) ms →
  fs !! p = Some (File c) → fs' !! p = Some (File c).
Proof.
  intros He Hms Hp.
  destruct (extractall_spec d ms fs fs' None He) as (n & _ & _ & Hkeep & _).
  apply Hkeep; [exact Hp|]. intros i rel c' _ Hl.
  rewrite Forall_forall in Hms. apply (Hms (rel, File c')).
  by apply list_elem_of_lookup_2 in Hl.
Qed.

Section After_download.

Context (conftest_dir : path)
        (remote : string → option http_response)
        (tar_decode : list byte → option members).

Lemma downloaded_archive_in_place (d a : path) (url : string) (w w' : world)
    (u : http_response) (ms : members) :
  remote url = Some u →
  tar_decode (body u) = Some ms →
  Forall (λ m, d ++ m.1 ≠ a) ms →
  download_and_extract_data remote tar_decode d a url w = (Ret tt, w') →
  files w' !! a = Some (File (body u)).
Proof.
  intros Hu Hd Hms. unfold download_and_extract_data. unfold bind at 1.
  destruct (urlretrieve remote url a w) as [[[]|e|s0|s0] w1] eqn:Hret; try done.
  assert (Ha : files w1 !! a = Some (File (body u))).
  { revert Hret. unfold urlretrieve, bind, emit, fs_write, raise, ret.
    cbn -[write_file]. rewrite Hu. cbn -[write_file].
    destruct (write_file (files w) a []) as [e|fs1] eqn:H1; cbn -[write_file]; [done|].
    destruct (content_length u) as [| |n]; cbn -[write_file Z.leb Z.ltb]; [|done|].
    - destruct (write_file fs1 a (body u)) as [e|fs2] eqn:H2; cbn -[write_file]; [done|].
      intros [= <-]. cbn [files]. apply write_file_result in H2 as ->.
      apply lookup_insert_eq.
    - destruct (write_file fs1 a (body u)) as [e|fs2] eqn:H2;
        cbn -[write_file Z.leb Z.ltb]; [done|].
      destruct ((0 <=? n) && (Z.of_nat (length (body u)) <? n)); [done|].
      intros [= <-]. cbn [files]. apply write_file_result in H2 as ->.
      apply lookup_insert_eq. }
  rewrite (extract_tar_spec tar_decode a d (body u) w1 Ha), Hd.
  destruct (extractall ms d (files w1)) as [fs3 [e|]] eqn:H3; cbn [fst snd]; [done|].
  intros [= <-]. cbn [files].
  by apply (extractall_keeps_file ms d (files w1) fs3 a (body u) H3 Hms).
Qed.

Lemma before_numba {A} (m : M A) (config : options) (w0 w1 : world) :
  (m >> numba_step config) w0 = (Ret tt, w1) →
  ∃ (a : A) (w' : world), m w0 = (Ret a, w') ∧ files w1 = files w'.
Proof.
  unfold bind. destruct (m w0) as [[a|e|s|s] w']; try done.
  rewrite numba_step_spec. intros [= <-]. by exists a, w'.
Qed.

(** X9: once a session without [--use_local_test_data] has returned, the
    session after it is quiet, when the host reports the true length of
    what it serves and no member of the archive is extracted onto the
    archive itself: the archive on disk then has the reported length,
    and the next session returns without a download or an extraction and
    without a change to the files. *)
Theorem returned_session_makes_the_next_quiet (config : options) (w w1 : world)
    (u : http_response) (ms : members) :
  use_local_test_data config = false →
  remote test_data_url = Some u →
  content_length u = Len (Z.of_nat (length (body u))) →
  tar_decode (body u) = Some ms →
  Forall (λ m, test_data_dir conftest_dir ++ m.1 ≠ test_data_archive conftest_dir) ms →
  pytest_configure conftest_dir remote tar_decode config w = (Ret tt, w1) →
  local_size_of (files w1) (test_data_archive conftest_dir) = Z.of_nat (length (body u))
  ∧ pytest_configure conftest_dir remote tar_decode config w1
    = (Ret tt, log_to w1 (quiet_events config)).
Proof.
  intros Hl Hu Hn Hd Hms Hrun.
  assert (Hq : queried_size remote = Some (Z.of_nat (length (body u))))
    by (unfold queried_size; by rewrite Hu, Hn).
  assert (Hsize : local_size_of (files w1) (test_data_archive conftest_dir)
                  = Z.of_nat (length (body u))).
  { destruct (decide (Z.of_nat (length (body u))
                      = local_size_of (files w) (test_data_archive conftest_dir)))
      as [He|Hne].
    - rewrite He in Hq. rewrite (quiet_run conftest_dir remote tar_decode config w Hl Hq)
        in Hrun.
      injection Hrun as <-. by rewrite He.
    - rewrite (download_run conftest_dir remote tar_decode config w _ Hl Hq Hne) in Hrun.
      apply before_numba in Hrun as ([] & w' & Hdl & ->).
      pose proof (downloaded_archive_in_place _ _ _ _ _ u ms Hu Hd Hms Hdl) as Ha.
      unfold local_size_of, getsize. by rewrite Ha. }
  split; [exact Hsize|].
  apply quiet_run; [exact Hl|]. by rewrite Hsize.
Qed.

End After_download.

(** ** What the directory preparation logs and destroys *)

Section Emits.

Context (P : event → Prop).

Lemma emits_only_ret {A} (a : A) : emits_only P (ret a).
Proof. intros w. exists []. by rewrite app_nil_r. Qed.

Lemma emits_only_raise {A} (e : exn) : emits_only P (@raise A e).
Proof. intros w. exists []. by rewrite app_nil_r. Qed.

Lemma emits_only_emit (ev : event) : P ev → emits_only P (emit ev).
Proof. intros Hev w. exists [ev]. split; [done|]. by repeat constructor. Qed.

Lemma emits_only_fs_read {A} (f : fsys → exn + A) : emits_only P (fs_read f).
Proof.
  intros w. exists []. unfold fs_read. rewrite app_nil_r. by destruct (f (files w)).
Qed.

Lemma emits_only_fs_write (f : fsys → exn + fsys) : emits_only P (fs_write f).
Proof.
  intros w. exists []. unfold fs_write. rewrite app_nil_r. by destruct (f (files w)).
Qed.

Lemma emits_only_bind {A B} (m : M A) (k : A → M B) :
  emits_only P m → (∀ a : A, emits_only P (k a)) → emits_only P (bind m k).
Proof.
  intros Hm Hk w. destruct (Hm w) as (e1 & Ht1 & Hp1). unfold bind.
  destruct (m w) as [[a|e|s|s] w1]; cbn [snd] in Ht1;
    try (exists e1; by split).
  destruct (Hk a w1) as (e2 & Ht2 & Hp2). exists (e1 ++ e2).
  rewrite Ht2, Ht1, app_assoc. split; [done|]. by apply Forall_app.
Qed.

Lemma emits_only_with_TemporaryDirectory {A} (tmp : path) (block : path → M A) :
  emits_only P (block tmp) → emits_only P (with_TemporaryDirectory tmp block).
Proof.
  intros Hb. unfold with_TemporaryDirectory. apply emits_only_bind.
  - apply emits_only_fs_write.
  - intros _ w. destruct (Hb w) as (evs & Ht & Hp). exists evs.
    destruct (block tmp w) as [r w1]. by split.
Qed.

End Emits.

Lemma remove_tree_of_new_directory (p : path) (fs : fsys) :
  fresh p fs → remove_tree p (<[p := Dir]> fs) = fs.
Proof.
  intros Hf. apply map_eq. intros k. rewrite lookup_remove_tree. case_decide as Hp.
  - symmetry. by apply (fresh_lookup p).
  - apply lookup_insert_ne. intros ->. by apply Hp.
Qed.

Section More_preparation.

Context (remote : string → option http_response)
        (tar_decode : list byte → option members)
        (mkdtemp_name : path).

Lemma handle_existing_data_emits (test_dir archive : path) (local_data : bool) :
  emits_only (λ ev, is_network ev = false ∧ is_extract ev = false)
    (handle_existing_data mkdtemp_name test_dir archive local_data).
Proof.
  unfold handle_existing_data. destruct local_data; cbn [negb].
  - apply emits_only_with_TemporaryDirectory. unfold print.
    repeat (apply emits_only_bind; [|intros _]);
      first [apply emits_only_fs_write | by apply emits_only_emit].
  - apply emits_only_fs_write.
Qed.

Lemma extract_tar_emits (a d : path) :
  emits_only (λ ev, is_network ev = false) (extract_tar tar_decode a d).
Proof.
  intros w. exists [EvExtract a d]. split; [apply extract_tar_trace|by repeat constructor].
Qed.

(** X10: with the local data kept, [extract_data_from_tar] makes no network
    call, whatever URL it is given and whatever is on disk. *)
Theorem keeping_local_data_never_calls_the_network (test_dir archive : path)
    (url : option string) (w : world) :
  Forall (λ ev, is_network ev = false)
    (events_since w
       (extract_data_from_tar remote tar_decode mkdtemp_name test_dir archive url true w).2).
Proof.
  assert (He : emits_only (λ ev, is_network ev = false)
                 (extract_data_from_tar remote tar_decode mkdtemp_name
                    test_dir archive url true)).
  { unfold extract_data_from_tar. rewrite andb_false_r.
    apply emits_only_bind; [|intros _; apply extract_tar_emits].
    apply emits_only_bind; [apply emits_only_fs_read|]. intros [].
    - intros w0. destruct (handle_existing_data_emits test_dir archive true w0)
        as (evs & Ht & Hp).
      exists evs. split; [done|]. eapply Forall_impl; [exact Hp|]. by intros ev [? _].
    - apply emits_only_fs_write. }
  destruct (He w) as (evs & Ht & Hp). by rewrite (events_since_log w _ evs Ht).
Qed.

(** X11: with the local data kept and no archive at the given path,
    [handle_existing_data] raises at the first copy, before the data
    directory is removed: every file is as it was, the temporary
    directory is gone, and only the first message was printed. *)
Theorem keeping_local_data_without_archive_changes_nothing (test_dir archive : path)
    (w : world) :
  files w !! archive = None →
  fresh mkdtemp_name (files w) →
  files w !! dirname mkdtemp_name = Some Dir →
  ∃ e : exn,
    handle_existing_data mkdtemp_name test_dir archive true w
    = (Raise e, log_to w [EvPrint "Copying local tarfile to temporary storage.."])
    ∧ is_OSError e = true.
Proof.
  intros Ha Hf Hp.
  assert (Hmk : mkdir (files w) mkdtemp_name = inr (<[mkdtemp_name := Dir]> (files w))).
  { apply mkdir_new; [|exact Hp]. by apply (fresh_lookup mkdtemp_name). }
  assert (Hcopy : ∃ e, copy2 (<[mkdtemp_name := Dir]> (files w)) archive mkdtemp_name = inl e
                       ∧ is_OSError e = true).
  { unfold copy2, isdir, read_file, exists_. rewrite lookup_insert_eq.
    destruct (decide (archive = mkdtemp_name)) as [->|Hne].
    - rewrite lookup_insert_eq, bool_decide_eq_false_2; [by eexists|].
      unfold join. intros He. apply (f_equal length) in He.
      rewrite length_app in He. simpl in He. lia.
    - rewrite lookup_insert_ne, Ha by done. rewrite andb_false_r. by eexists. }
  destruct Hcopy as (e & Hcopy & He). exists e. split; [|exact He].
  unfold handle_existing_data. cbn [negb].
  unfold with_TemporaryDirectory, bind, fs_write, print, emit. cbn [files trace].
  rewrite Hmk. cbn [files trace]. rewrite Hcopy. cbn [files trace].
  unfold log_to. by rewrite (remove_tree_of_new_directory _ _ Hf).
Qed.

(** X12: without keeping the local data, [extract_data_from_tar] on an
    existing directory that is to hold the archive always raises: the
    directory is removed with all it held and is not made again, so
    neither the download nor the extraction finds the archive path. *)
Theorem wipe_without_keeping_never_succeeds (test_dir : path) (name : string)
    (url : option string) (w : world) :
  files w !! test_dir = Some Dir →
  ∃ e : exn,
    (extract_data_from_tar remote tar_decode mkdtemp_name test_dir (join test_dir name)
       url false w).1 = Raise e
    ∧ files (extract_data_from_tar remote tar_decode mkdtemp_name test_dir
               (join test_dir name) url false w).2
      = remove_tree test_dir (files w)
    ∧ files (extract_data_from_tar remote tar_decode mkdtemp_name test_dir
               (join test_dir name) url false w).2 !! test_dir = None.
Proof.
  intros Hd.
  assert (Hgone : ∀ k : path, test_dir `prefix_of` k →
                    remove_tree test_dir (files w) !! k = None).
  { intros k Hk. rewrite lookup_remove_tree. by rewrite decide_True. }
  assert (Hdir : remove_tree test_dir (files w) !! test_dir = None) by (by apply Hgone).
  assert (Harch : remove_tree test_dir (files w) !! join test_dir name = None).
  { apply Hgone. by apply prefix_app_r. }
  assert (Hrun : ∃ (e : exn) (evs : list event),
            extract_data_from_tar remote tar_decode mkdtemp_name test_dir
              (join test_dir name) url false w
            = (Raise e, {| files := remove_tree test_dir (files w);
                           trace := trace w ++ evs |})).
  { unfold extract_data_from_tar, handle_existing_data. cbn [negb]. rewrite andb_true_r.
    unfold bind at 1. unfold bind at 1. unfold fs_read at 1, exists_. rewrite Hd.
    unfold fs_write at 1. rewrite (rmtree_dir _ _ Hd).
    destruct (truthy_url url).
    - unfold download_and_extract_data, urlretrieve, bind, emit, raise, fs_write.
      cbn -[write_file]. destruct (remote (default ""%string url)) as [u|];
        cbn -[write_file].
      + unfold write_file. rewrite Harch, dirname_join, Hdir. cbn. by eexists _, _.
      + by eexists _, _.
    - unfold extract_tar, bind, emit, fs_read, read_file. cbn. rewrite Harch. cbn.
      by eexists _, _. }
  destruct Hrun as (e & evs & ->). exists e. cbn [fst snd files]. by repeat split.
Qed.

(** X13: when the data directory is missing, [extract_data_from_tar] given a
    URL makes the directory, downloads the archive into it and goes on
    exactly as [extract_tar] on the downloaded file, provided the host
    answers with the true length of what it serves. *)
Theorem missing_directory_is_made_for_the_download (test_dir : path) (name url : string)
    (u : http_response) (w : world) :
  files w !! test_dir = None →
  files w !! join test_dir name = None →
  files w !! dirname test_dir = Some Dir →
  url ≠ ""%string →
  remote url = Some u →
  content_length u = Len (Z.of_nat (length (body u))) →
  extract_data_from_tar remote tar_decode mkdtemp_name test_dir (join test_dir name)
    (Some url) false w
  = extract_tar tar_decode (join test_dir name) test_dir
      {| files := <[join test_dir name := File (body u)]> (<[test_dir := Dir]> (files w));
         trace := trace w ++ [EvUrlretrieve url (join test_dir name)] |}.
Proof.
  intros Hd Ha Hp Hurl Hu Hn.
  assert (Hne : join test_dir name ≠ test_dir).
  { unfold join. intros He. apply (f_equal length) in He.
    rewrite length_app in He. simpl in He. lia. }
  unfold extract_data_from_tar, truthy_url. rewrite (bool_decide_eq_false_2 _ Hurl).
  cbn [negb andb default].
  unfold bind at 1. unfold bind at 1. unfold fs_read at 1, exists_. rewrite Hd.
  unfold fs_write at 1. rewrite (mkdir_new _ _ Hd Hp).
  unfold download_and_extract_data. unfold bind at 1.
  unfold urlretrieve, bind, emit, raise, ret, fs_write. cbn -[write_file extract_tar].
  rewrite Hu. cbn -[write_file extract_tar].
  unfold write_file at 1. rewrite lookup_insert_ne, Ha by done.
  rewrite dirname_join, lookup_insert_eq. cbn -[write_file extract_tar].
  rewrite Hn. cbn -[write_file extract_tar Z.leb Z.ltb].
  unfold write_file. rewrite lookup_insert_eq, dirname_join.
  rewrite lookup_insert_ne, lookup_insert_eq by done.
  cbn -[extract_tar Z.leb Z.ltb]. rewrite Z.ltb_irrefl, andb_false_r.
  by rewrite insert_insert_eq.
Qed.

End More_preparation.

(** ** One test after another under the clean-up fixture *)

Section Test_sequences.

Context (cwd : path).

Lemma clean_start_iff (w : world) :
  existsb (λ d, exists_ (files w) (Path cwd d)) cleanup_dirs = false
  ↔ ∀ d : string, d ∈ cleanup_dirs → exists_ (files w) (Path cwd d) = false.
Proof.
  split.
  - intros He d Hin. apply not_true_is_false. intros Hd.
    assert (existsb (λ d, exists_ (files w) (Path cwd d)) cleanup_dirs = true) as Ht.
    { apply existsb_exists. exists d. split; [by apply list_elem_of_In|exact Hd]. }
    congruence.
  - intros Hall. apply not_true_is_false. intros He.
    apply existsb_exists in He as (d & Hin & Hd).
    apply list_elem_of_In in Hin. rewrite (Hall d Hin) in Hd. discriminate.
Qed.

Lemma fixture_on_clean_start {A} (test : M A) (w : world) :
  (∀ d : string, d ∈ cleanup_dirs → exists_ (files w) (Path cwd d) = false) →
  cleanup_local_folder cwd test w
  = ((test w).1, {| files := foldl (sweep cwd) (files (test w).2) cleanup_dirs;
                    trace := trace (test w).2 |}).
Proof.
  intros Hclean. apply clean_start_iff in Hclean.
  unfold cleanup_local_folder, around, bind. rewrite cleanup_setup_spec, Hclean.
  destruct (test w) as [r w1]. unfold cleanup_teardown. by rewrite teardown_loop.
Qed.

Lemma fixture_on_dirty_start {A} (test : M A) (w : world) (d : string) :
  d ∈ cleanup_dirs → exists_ (files w) (Path cwd d) = true →
  cleanup_local_folder cwd test w = (Raise AssertionError, w).
Proof.
  intros Hin Hd. unfold cleanup_local_folder, around, bind. rewrite cleanup_setup_spec.
  replace (existsb (λ d, exists_ (files w) (Path cwd d)) cleanup_dirs) with true; [done|].
  symmetry. apply existsb_exists. exists d. split; [by apply list_elem_of_In|exact Hd].
Qed.

Lemma sweeps_keep_regular_files (ds : list string) (fs : fsys) (d : string)
    (c : list byte) :
  fs !! Path cwd d = Some (File c) →
  foldl (sweep cwd) fs ds !! Path cwd d = Some (File c).
Proof.
  revert fs. induction ds as [|d0 ds IH]; intros fs Hf; [done|].
  cbn [foldl]. apply IH. rewrite sweep_lookup.
  destruct (decide (d0 = d)) as [->|Hne].
  - unfold isdir. by rewrite Hf.
  - rewrite (bool_decide_eq_false_2 (Path cwd d0 `prefix_of` Path cwd d)).
    + by rewrite andb_false_r.
    + intros Hp. by apply Path_prefix in Hp.
Qed.

(** X14: the loop after [yield] does not remove a regular file: a test that
    started clean and leaves a file at one of the three paths leaves it
    there after the fixture, and every test that comes next fails in the
    fixture with [AssertionError] without running. *)
Theorem regular_file_left_behind_fails_the_next_tests (A : Type) (test : M A)
    (w : world) (d : string) (c : list byte) :
  (∀ d' : string, d' ∈ cleanup_dirs → exists_ (files w) (Path cwd d') = false) →
  d ∈ cleanup_dirs →
  files (test w).2 !! Path cwd d = Some (File c) →
  ∃ w' : world,
    cleanup_local_folder cwd test w = ((test w).1, w')
    ∧ files w' !! Path cwd d = Some (File c)
    ∧ ∀ (B : Type) (next : M B),
        cleanup_local_folder cwd next w' = (Raise AssertionError, w').
Proof.
  intros Hclean Hin Hf. eexists. split; [by apply fixture_on_clean_start|].
  cbn [files]. pose proof (sweeps_keep_regular_files cleanup_dirs _ d c Hf) as Hkept.
  split; [exact Hkept|]. intros B next.
  apply (fixture_on_dirty_start next _ d Hin). unfold exists_. cbn [files].
  by rewrite Hkept.
Qed.

(** X15: a test that started clean and leaves nothing but directories at the
    three paths is followed by a clean start: after the fixture none of
    the three paths exists, so the next test passes the assertions of the
    fixture and runs. *)
Theorem fixture_hands_over_a_clean_start (A : Type) (test : M A) (w : world) :
  (∀ d : string, d ∈ cleanup_dirs → exists_ (files w) (Path cwd d) = false) →
  (∀ (d : string) (c : list byte), d ∈ cleanup_dirs →
     files (test w).2 !! Path cwd d ≠ Some (File c)) →
  ∃ w' : world,
    cleanup_local_folder cwd test w = ((test w).1, w')
    ∧ (∀ d : string, d ∈ cleanup_dirs → exists_ (files w') (Path cwd d) = false)
    ∧ ∀ (B : Type) (next : M B),
        ∃ w'' : world, cleanup_local_folder cwd next w' = ((next w').1, w'').
Proof.
  intros Hclean Hdirs. eexists. split; [by apply fixture_on_clean_start|].
  assert (Hnone : ∀ d : string, d ∈ cleanup_dirs →
            exists_ {| files := foldl (sweep cwd) (files (test w).2) cleanup_dirs;
                       trace := trace (test w).2 |}.(files) (Path cwd d) = false).
  { intros d Hin. unfold exists_. cbn [files].
    destruct (files (test w).2 !! Path cwd d) as [[c|]|] eqn:Hd.
    - by destruct (Hdirs d c Hin).
    - rewrite (sweeps_remove_trees cwd cleanup_dirs _ d); [done|exact Hin| |done].
      unfold isdir. by rewrite Hd.
    - destruct (sweeps_only_remove cwd cleanup_dirs (files (test w).2) (Path cwd d))
        as [->| ->]; [done|by rewrite Hd]. }
  split; [exact Hnone|]. intros B next. eexists. by apply fixture_on_clean_start.
Qed.

End Test_sequences.

(** ** The further theorems at concrete runs *)

Section More_witnesses.

Import Examples More_examples.

(** An extraction that fails at its second member, which goes below the
    regular file [old.wav]: the session raises, the first member is on
    disk and the file in the way is untouched. *)
Lemma failed_extraction_keeps_what_was_written :
  (pytest_configure tests_dir unreachable two_member_tar local_only (start cached)).1
  = Raise (NotADirectoryError stale)
  ∧ files (pytest_configure tests_dir unreachable two_member_tar local_only
             (start cached)).2 !! (data_dir ++ ["new.txt"%string])
    = Some (File [x05]%byte)
  ∧ files (pytest_configure tests_dir unreachable two_member_tar local_only
             (start cached)).2 !! stale
    = Some (File [x09]%byte).
Proof. vm_compute. repeat split; reflexivity. Qed.

(** A response without a length on a checkout without test data. *)
Lemma failed_query_witness :
  use_local_test_data no_flags = false
  ∧ queried_size (serving chunked) = None
  ∧ (pytest_configure tests_dir (serving chunked) one_file_tar no_flags (start checkout)).1
    = Exit "Test data not present and cannot access the '{url}' URL".
Proof.
  split; [reflexivity|]. split; [reflexivity|].
  apply (failed_query_aborts_the_setup tests_dir (serving chunked) one_file_tar
           no_flags (start checkout) eq_refl eq_refl).
  vm_compute. reflexivity.
Defined.

(** The session after the download of the release. *)
Lemma next_session_witness :
  use_local_test_data no_flags = false
  ∧ serving release test_data_url = Some release
  ∧ content_length release = Len (Z.of_nat (length (body release)))
  ∧ one_file_tar (body release) = Some [ (["clips"; "a.wav"]%string, File (body release)) ]
  ∧ pytest_configure tests_dir (serving release) one_file_tar no_flags (start cached)
    = (Ret tt,
       (pytest_configure tests_dir (serving release) one_file_tar no_flags (start cached)).2)
  ∧ pytest_configure tests_dir (serving release) one_file_tar no_flags
      (pytest_configure tests_dir (serving release) one_file_tar no_flags (start cached)).2
    = (Ret tt,
       log_to (pytest_configure tests_dir (serving release) one_file_tar no_flags
                 (start cached)).2
         (quiet_events no_flags)).
Proof.
  assert (Hrun : pytest_configure tests_dir (serving release) one_file_tar no_flags
                   (start cached)
                 = (Ret tt,
                    (pytest_configure tests_dir (serving release) one_file_tar no_flags
                       (start cached)).2)) by (vm_compute; reflexivity).
  split; [reflexivity|]. split; [reflexivity|]. split; [reflexivity|].
  split; [reflexivity|]. split; [exact Hrun|].
  apply (returned_session_makes_the_next_quiet tests_dir (serving release) one_file_tar
           no_flags (start cached) _ release
           [ (["clips"; "a.wav"]%string, File (body release)) ]
           eq_refl eq_refl eq_refl eq_refl);
    [|exact Hrun].
  repeat constructor. vm_compute. discriminate.
Defined.

(** Keeping the local data on a checkout without an archive. *)
Lemma nothing_changed_witness :
  files (start checkout) !! archive = None
  ∧ fresh tmp_dir (files (start checkout))
  ∧ files (start checkout) !! dirname tmp_dir = Some Dir
  ∧ ∃ e : exn,
      handle_existing_data tmp_dir data_dir archive true (start checkout)
      = (Raise e,
         log_to (start checkout) [EvPrint "Copying local tarfile to temporary storage.."])
      ∧ is_OSError e = true.
Proof.
  assert (Hfresh : fresh tmp_dir (files (start checkout))).
  { apply (bool_decide_unpack _). vm_compute. reflexivity. }
  split; [vm_compute; reflexivity|]. split; [exact Hfresh|].
  split; [vm_compute; reflexivity|].
  apply (keeping_local_data_without_archive_changes_nothing tmp_dir data_dir archive
           (start checkout)); [vm_compute; reflexivity | exact Hfresh | vm_compute; reflexivity].
Defined.

(** The wipe of the cached data directory before a download. *)
Lemma wipe_witness :
  files (start cached) !! data_dir = Some Dir
  ∧ ∃ e : exn,
      (extract_data_from_tar (serving release) one_file_tar tmp_dir data_dir
         (join data_dir "test_data.tar.gz") (Some test_data_url) false (start cached)).1
      = Raise e
      ∧ files (extract_data_from_tar (serving release) one_file_tar tmp_dir data_dir
                 (join data_dir "test_data.tar.gz") (Some test_data_url) false
                 (start cached)).2
        = remove_tree data_dir (files (start cached))
      ∧ files (extract_data_from_tar (serving release) one_file_tar tmp_dir data_dir
                 (join data_dir "test_data.tar.gz") (Some test_data_url) false
                 (start cached)).2 !! data_dir = None.
Proof.
  split; [vm_compute; reflexivity|].
  apply (wipe_without_keeping_never_succeeds (serving release) one_file_tar tmp_dir
           data_dir "test_data.tar.gz" (Some test_data_url) (start cached)).
  vm_compute. reflexivity.
Defined.

(** A download through [extract_data_from_tar] on a checkout without
    the data directory. *)
Lemma made_directory_witness :
  files (start checkout) !! data_dir = None
  ∧ files (start checkout) !! join data_dir "test_data.tar.gz" = None
  ∧ files (start checkout) !! dirname data_dir = Some Dir
  ∧ test_data_url ≠ ""%string
  ∧ serving release test_data_url = Some release
  ∧ content_length release = Len (Z.of_nat (length (body release)))
  ∧ extract_data_from_tar (serving release) one_file_tar tmp_dir data_dir
      (join data_dir "test_data.tar.gz") (Some test_data_url) false (start checkout)
    = extract_tar one_file_tar (join data_dir "test_data.tar.gz") data_dir
        {| files := <[join data_dir "test_data.tar.gz" := File (body release)]>
                      (<[data_dir := Dir]> (files (start checkout)));
           trace := trace (start checkout)
                    ++ [EvUrlretrieve test_data_url (join data_dir "test_data.tar.gz")] |}.
Proof.
  assert (Hurl : test_data_url ≠ ""%string) by (vm_compute; discriminate).
  split; [vm_compute; reflexivity|]. split; [vm_compute; reflexivity|].
  split; [vm_compute; reflexivity|]. split; [exact Hurl|].
  split; [reflexivity|]. split; [reflexivity|].
  apply (missing_directory_is_made_for_the_download (serving release) one_file_tar
           tmp_dir data_dir "test_data.tar.gz" test_data_url release (start checkout));
    [vm_compute; reflexivity | vm_compute; reflexivity | vm_compute; reflexivity
    | exact Hurl | reflexivity | reflexivity].
Defined.

Lemma checkout_is_clean :
  ∀ d : string, d ∈ cleanup_dirs →
    exists_ (files (start checkout)) (Path work_dir d) = false.
Proof.
  intros d Hd. unfold cleanup_dirs in Hd.
  repeat (apply elem_of_cons in Hd as [->|Hd]; [vm_compute; reflexivity|]).
  by apply elem_of_nil in Hd.
Defined.

(** A test that leaves a regular file named like the log directory. *)
Lemma file_left_behind_witness :
  (∀ d : string, d ∈ cleanup_dirs →
     exists_ (files (start checkout)) (Path work_dir d) = false)
  ∧ "lightning_logs"%string ∈ cleanup_dirs
  ∧ files (file_leaving_test (start checkout)).2 !! Path work_dir "lightning_logs"
    = Some (File [x00]%byte)
  ∧ ∃ w' : world,
      cleanup_local_folder work_dir file_leaving_test (start checkout)
      = ((file_leaving_test (start checkout)).1, w')
      ∧ files w' !! Path work_dir "lightning_logs" = Some (File [x00]%byte)
      ∧ ∀ (B : Type) (next : M B),
          cleanup_local_folder work_dir next w' = (Raise AssertionError, w').
Proof.
  assert (Hin : "lightning_logs"%string ∈ cleanup_dirs) by (by left).
  split; [exact checkout_is_clean|]. split; [exact Hin|].
  split; [vm_compute; reflexivity|].
  apply (regular_file_left_behind_fails_the_next_tests work_dir unit file_leaving_test
           (start checkout) "lightning_logs" [x00]%byte checkout_is_clean Hin).
  vm_compute. reflexivity.
Defined.

(** A test that leaves a log directory, and the test after it. *)
Lemma clean_handover_witness :
  (∀ d : string, d ∈ cleanup_dirs →
     exists_ (files (start checkout)) (Path work_dir d) = false)
  ∧ (∀ (d : string) (c : list byte), d ∈ cleanup_dirs →
       files (logging_test (start checkout)).2 !! Path work_dir d ≠ Some (File c))
  ∧ ∃ w' : world,
      cleanup_local_folder work_dir logging_test (start checkout)
      = ((logging_test (start checkout)).1, w')
      ∧ (∀ d : string, d ∈ cleanup_dirs → exists_ (files w') (Path work_dir d) = false)
      ∧ ∀ (B : Type) (next : M B),
          ∃ w'' : world, cleanup_local_folder work_dir next w' = ((next w').1, w'').
Proof.
  assert (Hdirs : ∀ (d : string) (c : list byte), d ∈ cleanup_dirs →
            files (logging_test (start checkout)).2 !! Path work_dir d ≠ Some (File c)).
  { intros d c Hd. unfold cleanup_dirs in Hd.
    repeat (apply elem_of_cons in Hd as [->|Hd]; [vm_compute; congruence|]).
    by apply elem_of_nil in Hd. }
  split; [exact checkout_is_clean|]. split; [exact Hdirs|].
  apply (fixture_hands_over_a_clean_start work_dir unit logging_test (start checkout)
           checkout_is_clean Hdirs).
Defined.

End More_witnesses.
